(** * opendbt: a shallow embedding of [opendbt/__init__.py] and
    [opendbt/dbtcommon.py]

    The Python sources are rendered as Rocq functions.  Python objects that
    are mutated in place (argument lists, callback lists, loggers) live in
    explicit stores indexed by references, so that aliasing is visible;
    calls that can raise return an [Outcome]; the collaborators that are not
    part of the two files (the base tool's runner, the project loader,
    [importlib], [opendbt.utils.Utils]) are fields of type classes. *)

From stdpp Require Import base option list strings gmap fin_maps.
From Stdlib Require Import Ascii String.

Local Open Scope string_scope.
Local Open Scope list_scope.

#[local] Set Warnings "-clear-no-such-hyp".

(** ** Python preliminaries *)

Module Py.

(** Exception classes that occur in the two files, plus an open-ended
    constructor for every other class (the base tool's own errors,
    [KeyError], ...). *)
Inductive ExcClass :=
  | ValueError
  | TypeError
  | AttributeError
  | KeyError
  | ModuleNotFoundError
  | DbtRuntimeError
  | Exception
  | OtherError (name : string).

(** An exception object: its class, the message it was built with, and
    [__cause__] (set by [raise ... from ...]). *)
#[warnings="-register-all"]
Inductive Exc :=
  | MkExc (cls : ExcClass) (msg : option string) (cause : option Exc).

Definition exc_class (e : Exc) : ExcClass := let 'MkExc c _ _ := e in c.
Definition exc_msg (e : Exc) : option string := let 'MkExc _ m _ := e in m.
Definition exc_cause (e : Exc) : option Exc := let 'MkExc _ _ c := e in c.

#[global] Instance ExcClass_eq_dec : EqDecision ExcClass.
Proof. solve_decision. Defined.

(** The result of running a piece of Python: a value, or a raised exception. *)
Inductive Outcome (A : Type) :=
  | Return (a : A)
  | Raise (e : Exc).
Arguments Return {A} a.
Arguments Raise {A} e.

Definition raises {A} (c : ExcClass) (o : Outcome A) : Prop :=
  match o with
  | Raise e => exc_class e = c
  | Return _ => False
  end.

Definition returns {A} (o : Outcome A) : Prop :=
  match o with
  | Return _ => True
  | Raise _ => False
  end.

(** An opaque Python object, known only by its identity. *)
Inductive PyObject := ObjRef (id : nat).

(** Truthiness of [str] and [list]: non-empty. *)
Definition str_truthy (s : string) : bool :=
  match s with
  | EmptyString => false
  | String _ _ => true
  end.

Definition list_truthy {A} (l : list A) : bool :=
  match l with
  | [] => false
  | _ :: _ => true
  end.

(** [c in s] for a one-character needle. *)
Fixpoint contains_char (c : ascii) (s : string) : bool :=
  match s with
  | EmptyString => false
  | String d s' => if Ascii.eqb d c then true else contains_char c s'
  end.

(** [x in l] for a list of strings. *)
Definition str_in (x : string) (l : list string) : bool :=
  bool_decide (x ∈ l).

(** The split of [s] at its last occurrence of [sep], when there is one. *)
Fixpoint rsplit_last (sep : ascii) (s : string) : option (string * string) :=
  match s with
  | EmptyString => None
  | String c s' =>
      match rsplit_last sep s' with
      | Some (front, back) => Some (String c front, back)
      | None => if Ascii.eqb c sep then Some (EmptyString, s') else None
      end
  end.

(** [s.rsplit(sep, 1)]: at most one split, made at the rightmost separator. *)
Definition rsplit1 (sep : ascii) (s : string) : list string :=
  match rsplit_last sep s with
  | Some (front, back) => [front; back]
  | None => [s]
  end.

(** [s.split(sep)] for a one-character separator: every separator splits,
    empty pieces are kept, and the empty string gives one empty piece. *)
Fixpoint split (sep : ascii) (s : string) : list string :=
  match s with
  | EmptyString => [EmptyString]
  | String c s' =>
      if Ascii.eqb c sep then EmptyString :: split sep s'
      else match split sep s' with
           | piece :: pieces => String c piece :: pieces
           | [] => [String c EmptyString]
           end
  end.





(** [sep.join(l)] *)
Fixpoint join (sep : string) (l : list string) : string :=
  match l with
  | [] => EmptyString
  | [x] => x
  | x :: rest => x +:+ sep +:+ join sep rest
  end.

(** [l.remove(x)]: drops the first element equal to [x]; [None] stands for
    the [ValueError] Python raises when there is none. *)
Fixpoint list_remove (x : string) (l : list string) : option (list string) :=
  match l with
  | [] => None
  | y :: l' =>
      if String.eqb y x then Some l'
      else match list_remove x l' with
           | Some r => Some (y :: r)
           | None => None
           end
  end.

End Py.

Import Py.

(** ** [opendbt/dbtcommon.py] *)

Module DbtCommon.






(** A module object: its attributes. *)
Definition Module_ : Type := gmap string PyObject.

(** [importlib.import_module], supplied by the interpreter. *)
Class Importlib := { import_module : string → Outcome Module_ }.

Definition getattr (m : Module_) (attr : string) : Outcome PyObject :=
  match m !! attr with
  | Some o => Return o
  | None =>
      Raise (MkExc AttributeError
               (Some ("module has no attribute '" +:+ attr +:+ "'")) None)
  end.

Definition unexpected_name_msg (name : string) : string :=
  "Unexpected adapter class name: `" +:+ name +:+
  "` ,Expecting something like:`my.sample.library.MyAdapterClass`".

Definition module_not_found_msg (name : string) : string :=
  "Module of provided adapter not found, provided: " +:+ name.

(** The [except ModuleNotFoundError as mnfe: raise Exception(...) from mnfe]
    handler around the [try] body. *)
Definition except_module_not_found (name : string) (body : Outcome PyObject)
    : Outcome PyObject :=
  match body with
  | Return cls => Return cls
  | Raise mnfe =>
      if decide (exc_class mnfe = ModuleNotFoundError)
      then Raise (MkExc Exception (Some (module_not_found_msg name)) (Some mnfe))
      else Raise mnfe
  end.

Definition get_custom_adapter_class_by_name `{Importlib}
    (custom_adapter_class_name : string) : Outcome PyObject :=
  if negb (contains_char "." custom_adapter_class_name) then
    Raise (MkExc ValueError (Some (unexpected_name_msg custom_adapter_class_name)) None)
  else
    match rsplit1 "." custom_adapter_class_name with
    | [__module; __class] =>
        except_module_not_found custom_adapter_class_name
          match import_module __module with
          | Return user_adapter_module => getattr user_adapter_module __class
          | Raise e => Raise e
          end
    | _ =>
        (* tuple unpacking of a list that does not have two elements *)
        Raise (MkExc ValueError (Some "not enough values to unpack (expected 2, got 1)") None)
    end.

(** CPython's [importlib.import_module(name)] without a [package] argument,
    over the table of modules that can be imported: a relative name is a
    [TypeError], the empty name a [ValueError] ("Empty module name"), and a
    name that is not in the table a [ModuleNotFoundError]. *)
Definition cpython_import_module (importable : gmap string Module_) (name : string)
    : Outcome Module_ :=
  match name with
  | String "." _ =>
      Raise (MkExc TypeError
               (Some ("the 'package' argument is required to perform a relative import for '"
                      +:+ name +:+ "'")) None)
  | EmptyString => Raise (MkExc ValueError (Some "Empty module name") None)
  | _ =>
      match importable !! name with
      | Some m => Return m
      | None =>
          Raise (MkExc ModuleNotFoundError
                   (Some ("No module named '" +:+ name +:+ "'")) None)
      end
  end.

Definition CPython (importable : gmap string Module_) : Importlib :=
  {| import_module := cpython_import_module importable |}.

End DbtCommon.

(** ** The part of Python's [logging] that [OpenDbtLogger] touches *)

Module Logging.

Inductive Stream := Stdout | Stderr.

Definition INFO : nat := 20.

Record Handler := {
  stream : Stream;
  formatter : option string;
  level : nat;
}.

Record Logger := {
  handlers : list Handler;
  propagate : bool;
}.

(** The module's state: the root logger and the manager's [loggerDict].
    A logger object is identified by its name: [getLogger] hands out one
    object per name. *)
Record Manager := {
  root : Logger;
  loggerDict : gmap string Logger;
}.

Definition new_logger : Logger := {| handlers := []; propagate := true |}.

Definition find (name : string) (m : Manager) : Logger :=
  default new_logger (loggerDict m !! name).

(** [logging.getLogger(name)]: the logger is created on its first request. *)
Definition getLogger (name : string) (m : Manager) : string * Manager :=
  match loggerDict m !! name with
  | Some _ => (name, m)
  | None => (name, {| root := root m; loggerDict := <[name := new_logger]> (loggerDict m) |})
  end.

(** [Logger.hasHandlers] of a logger whose parent is the root logger (a
    name without dots): its own handlers, then, if it propagates, the
    root's. *)
Definition hasHandlers (name : string) (m : Manager) : bool :=
  let c := find name m in
  if list_truthy (handlers c) then true
  else if propagate c then list_truthy (handlers (root m))
  else false.

(** [Logger.addHandler]: appended unless that handler is already there; the
    handler added here is always a new object. *)
Definition addHandler (name : string) (h : Handler) (m : Manager) : Manager :=
  let c := find name m in
  {| root := root m;
     loggerDict := <[name := {| handlers := handlers c ++ [h]; propagate := propagate c |}]>
                     (loggerDict m) |}.

End Logging.

(** ** [opendbt/__init__.py] *)

Module OpenDbtLogger.
Import Logging.

(** The instance attribute [_log]; [None] until the first access (the class
    attribute is [None]). *)
Record obj := { _log : option string }.

Definition new : obj := {| _log := None |}.

Definition log_format : string :=
  "[%(asctime)s] {%(filename)s:%(lineno)d} %(levelname)s - %(message)s".

Definition stdout_handler : Handler :=
  {| stream := Stdout; formatter := Some log_format; level := INFO |}.

(** The [log] property: the logger it returns, the instance and the logging
    state after the access. *)
Definition log (self : obj) (m : Manager) : string * obj * Manager :=
  match _log self with
  | None =>
      let '(logger, m1) := getLogger "opendbt" m in
      let self1 := {| _log := Some logger |} in
      if negb (hasHandlers logger m1)
      then (logger, self1, addHandler logger stdout_handler m1)
      else (logger, self1, m1)
  | Some logger => (logger, self, m)
  end.

End OpenDbtLogger.

Module OpenDbt.

Definition loc : Type := nat.
Definition Callback : Type := PyObject.
Definition Manifest : Type := PyObject.

(** A value of a [vars] entry of [dbt_project.yml]; [YOther] carries what
    [str()] gives for a value that is none of the scalars. *)
Inductive YamlValue :=
  | YStr (s : string)
  | YBool (b : bool)
  | YNull
  | YOther (text : string).

Definition py_str (v : YamlValue) : string :=
  match v with
  | YStr s => s
  | YBool true => "True"
  | YBool false => "False"
  | YNull => "None"
  | YOther text => text
  end.

(** [PartialProject]: the entries of [project_dict] that are mappings. *)
Record PartialProject := {
  project_dict_of : gmap string (gmap string YamlValue);
}.

Record RunResult := {
  status : string;
  message : option string;
}.

(** [dbtRunnerResult.result]: the base tool declares it as
    [Union[bool, CatalogArtifact, List[str], Manifest, None, RunExecutionResult]];
    a [RunExecutionResult] iterates over its run results. *)
Inductive ResultValue :=
  | ResNone
  | ResBool (b : bool)
  | ResCatalog (c : PyObject)
  | ResStrings (l : list string)
  | ResManifest (m : Manifest)
  | ResExecution (results : list RunResult).

Record dbtRunnerResult := {
  success : bool;
  exception : option Exc;
  result : ResultValue;
}.

(** The base tool. [DbtCliRunner_invoke callbacks args] is
    [DbtCliRunner(callbacks=callbacks).invoke(args)], which reports every
    failure inside its result. *)
Class BaseTool := {
  get_nearest_project_dir : string → Outcome string;
  from_project_root : string → bool → Outcome PartialProject;
  DbtCliRunner_invoke : list Callback → list string → dbtRunnerResult;
}.

(** [opendbt.utils.Utils], the interpreter and the operating system. *)
Class Runtime := {
  import_module_attribute_by_name : string → Outcome Callback;
  runcommand : list string → Outcome unit;
  os_getcwd : string;
  sys_executable : option string;
}.

(** The mutable world: the list objects (by reference), the logging module,
    and a record of what was handed to the collaborators. *)
Record World := {
  arg_lists : gmap loc (list string);
  callback_lists : gmap loc (list Callback);
  logging : Logging.Manager;
  info_records : list (string * string);
  dbt_invocations : list (list Callback * list string);
  subprocess_commands : list (list string);
}.

Definition set_arg_lists (f : gmap loc (list string) → gmap loc (list string)) (w : World) : World :=
  {| arg_lists := f (arg_lists w); callback_lists := callback_lists w;
     logging := logging w; info_records := info_records w;
     dbt_invocations := dbt_invocations w; subprocess_commands := subprocess_commands w |}.

Definition set_callback_lists (f : gmap loc (list Callback) → gmap loc (list Callback)) (w : World) : World :=
  {| arg_lists := arg_lists w; callback_lists := f (callback_lists w);
     logging := logging w; info_records := info_records w;
     dbt_invocations := dbt_invocations w; subprocess_commands := subprocess_commands w |}.

Definition set_logging (m : Logging.Manager) (w : World) : World :=
  {| arg_lists := arg_lists w; callback_lists := callback_lists w;
     logging := m; info_records := info_records w;
     dbt_invocations := dbt_invocations w; subprocess_commands := subprocess_commands w |}.

Definition add_info_record (r : string * string) (w : World) : World :=
  {| arg_lists := arg_lists w; callback_lists := callback_lists w;
     logging := logging w; info_records := info_records w ++ [r];
     dbt_invocations := dbt_invocations w; subprocess_commands := subprocess_commands w |}.

Definition add_dbt_invocation (i : list Callback * list string) (w : World) : World :=
  {| arg_lists := arg_lists w; callback_lists := callback_lists w;
     logging := logging w; info_records := info_records w;
     dbt_invocations := dbt_invocations w ++ [i]; subprocess_commands := subprocess_commands w |}.

Definition add_subprocess_command (c : list string) (w : World) : World :=
  {| arg_lists := arg_lists w; callback_lists := callback_lists w;
     logging := logging w; info_records := info_records w;
     dbt_invocations := dbt_invocations w; subprocess_commands := subprocess_commands w ++ [c] |}.

(** *** Python code as state transformers that may raise

    The state is a pair of [self] and the world.  An exception leaves the
    state as it was when it was raised: nothing is rolled back. *)

Definition M (S A : Type) : Type := S → Outcome A * S.

Definition ret {S A} (a : A) : M S A := λ s, (Return a, s).
Definition throw {S A} (e : Exc) : M S A := λ s, (Raise e, s).
Definition bind {S A B} (m : M S A) (k : A → M S B) : M S B :=
  λ s, match m s with
       | (Return a, s') => k a s'
       | (Raise e, s') => (Raise e, s')
       end.
Definition gets {S A} (f : S → A) : M S A := λ s, (Return (f s), s).
Definition modify {S} (f : S → S) : M S unit := λ s, (Return tt, f s).
Definition call {S A} (o : Outcome A) : M S A := λ s, (o, s).

Declare Scope py_scope.
Delimit Scope py_scope with py.
Notation "'let*' x ':=' m 'in' k" := (bind m (λ x, k))
  (at level 10, x pattern, m at level 100, k at level 200, only parsing) : py_scope.
Notation "'do' m 'in' k" := (bind m (λ _, k))
  (at level 10, m at level 100, k at level 200, only parsing) : py_scope.
Local Open Scope py_scope.

Fixpoint for_each {S A} (l : list A) (body : A → M S unit) : M S unit :=
  match l with
  | [] => ret tt
  | x :: l' => do body x in for_each l' body
  end.

Section world_operations.
Context {O : Type}.

Definition on_world (f : World → World) : M (O * World) unit :=
  modify (λ s, (s.1, f s.2)).

(** The elements of a list object. *)
Definition read_args (l : loc) : M (O * World) (list string) :=
  gets (λ s, arg_lists s.2 !!! l).
Definition read_callbacks (l : loc) : M (O * World) (list Callback) :=
  gets (λ s, callback_lists s.2 !!! l).

(** A new list object. *)
Definition new_args (v : list string) : M (O * World) loc :=
  let* l := gets (λ s, fresh (dom (arg_lists s.2))) in
  do on_world (set_arg_lists <[l := v]>) in
  ret l.
Definition new_callbacks (v : list Callback) : M (O * World) loc :=
  let* l := gets (λ s, fresh (dom (callback_lists s.2))) in
  do on_world (set_callback_lists <[l := v]>) in
  ret l.

(** [l += extra] and [l.append(x)]: the object is changed in place. *)
Definition extend_args (l : loc) (extra : list string) : M (O * World) unit :=
  on_world (set_arg_lists (λ h, <[l := (h !!! l) ++ extra]> h)).
Definition append_callback (l : loc) (x : Callback) : M (O * World) unit :=
  on_world (set_callback_lists (λ h, <[l := (h !!! l) ++ [x]]> h)).

(** Truthiness of a parameter that is a list or [None]. *)
Definition args_truthy (r : option loc) (w : World) : bool :=
  match r with
  | Some l => list_truthy (arg_lists w !!! l)
  | None => false
  end.
Definition callbacks_truthy (r : option loc) (w : World) : bool :=
  match r with
  | Some l => list_truthy (callback_lists w !!! l)
  | None => false
  end.

End world_operations.

End OpenDbt.

Import OpenDbt.
Local Open Scope py_scope.

Module OpenDbtCli.

(** [project_dir] and [profiles_dir] are [Path] objects, held as the string
    [as_posix()] gives; a [Path] is always truthy.  [_user_callbacks] and
    [_project_callbacks] are references to list objects. *)
Record obj := {
  project_dir : string;
  profiles_dir : option string;
  _project : option PartialProject;
  _user_callbacks : loc;
  _project_callbacks : option loc;
}.

Definition set__project (p : option PartialProject) (self : obj) : obj :=
  {| project_dir := project_dir self; profiles_dir := profiles_dir self;
     _project := p; _user_callbacks := _user_callbacks self;
     _project_callbacks := _project_callbacks self |}.

Definition set__project_callbacks (l : option loc) (self : obj) : obj :=
  {| project_dir := project_dir self; profiles_dir := profiles_dir self;
     _project := _project self; _user_callbacks := _user_callbacks self;
     _project_callbacks := l |}.

Definition St : Type := obj * World.

Section methods.
Context `{BaseTool, Runtime}.

Definition __init__ (project_dir : string) (profiles_dir : option string)
    (callbacks : option loc) : M (unit * World) obj :=
  let* nearest := call (get_nearest_project_dir project_dir) in
  let* given := gets (λ s, callbacks_truthy callbacks s.2) in
  let* user_callbacks :=
    match callbacks with
    | Some l => if given then ret l else new_callbacks []
    | None => new_callbacks []
    end in
  ret {| project_dir := nearest; profiles_dir := profiles_dir;
         _project := None; _user_callbacks := user_callbacks;
         _project_callbacks := None |}.

Definition project : M St PartialProject :=
  let* cached := gets (λ s, _project s.1) in
  match cached with
  | Some p => ret p
  | None =>
      let* root := gets (λ s, project_dir s.1) in
      let* p := call (from_project_root root true) in
      do modify (λ s, (set__project (Some p) s.1, s.2)) in
      ret p
  end.

Definition project_dict : M St (gmap string (gmap string YamlValue)) :=
  let* p := project in
  ret (project_dict_of p).

(** [d[key]] *)
Definition getitem {V} (d : gmap string V) (key : string) : M St V :=
  match d !! key with
  | Some v => ret v
  | None => throw (MkExc KeyError (Some key) None)
  end.

Definition project_vars : M St (gmap string YamlValue) :=
  let* d := project_dict in
  if bool_decide ("vars" ∈ dom d) then
    let* d' := project_dict in
    getitem d' "vars"
  else ret ∅.

(** The list object [self._project_callbacks] refers to, for a method call
    on it; on [None] the attribute access fails. *)
Definition the_project_callbacks : M St loc :=
  let* r := gets (λ s, _project_callbacks s.1) in
  match r with
  | Some l => ret l
  | None =>
      throw (MkExc AttributeError
               (Some "'NoneType' object has no attribute 'append'") None)
  end.

(** The body of the loop of [project_callbacks] (lines 78-79). *)
Definition resolve_callback (_callback_module : string) : M St unit :=
  let* _project_callback := call (import_module_attribute_by_name _callback_module) in
  let* l := the_project_callbacks in
  append_callback l _project_callback.

Definition project_callbacks : M St (option loc) :=
  let* set := gets (λ s, callbacks_truthy (_project_callbacks s.1) s.2) in
  do (if negb set then
        do modify (λ s, (set__project_callbacks (Some (_user_callbacks s.1)) s.1, s.2)) in
        let* vars := project_vars in
        if bool_decide ("dbt_callbacks" ∈ dom vars) then
          let* vars' := project_vars in
          let* names := getitem vars' "dbt_callbacks" in
          for_each (split "," (py_str names)) resolve_callback
        else ret tt
      else ret tt) in
  gets (λ s, _project_callbacks s.1).

Definition newline : string := String "010"%char EmptyString.

Definition execution_failed : Exc :=
  MkExc DbtRuntimeError (Some "DBT execution failed!") None.

(** The [for _result in result.result:] loop over run results and the
    [raise] after it: the exception the loop ends in. *)
Fixpoint raise_error_message (results : list RunResult) : Exc :=
  match results with
  | [] => execution_failed
  | _result :: rest =>
      let _result_messages := "" in
      let _result_messages :=
        if String.eqb (status _result) "error"
        then _result_messages +:+ (_result_messages +:+ newline)
        else _result_messages in
      if str_truthy _result_messages
      then MkExc DbtRuntimeError (message _result) None
      else raise_error_message rest
  end.

Definition not_iterable (type_name : string) : Exc :=
  MkExc TypeError (Some ("'" +:+ type_name +:+ "' object is not iterable")) None.

(** Lines 119-127 for each kind of [result.result]: only a list and a
    [RunExecutionResult] can be iterated, and the elements of a list are
    strings, which have no [status]. *)
Definition raise_for_result (v : ResultValue) : Exc :=
  match v with
  | ResExecution results => raise_error_message results
  | ResStrings [] => execution_failed
  | ResStrings (_ :: _) =>
      MkExc AttributeError (Some "'str' object has no attribute 'status'") None
  | ResNone => not_iterable "NoneType"
  | ResBool _ => not_iterable "bool"
  | ResCatalog _ => not_iterable "CatalogArtifact"
  | ResManifest _ => not_iterable "Manifest"
  end.

(** The static method [run]. *)
Definition run {O} (args : loc) (callbacks : option loc) : M (O * World) dbtRunnerResult :=
  let* given := gets (λ s, callbacks_truthy callbacks s.2) in
  let* callbacks :=
    match callbacks with
    | Some l => if given then read_callbacks l else ret []
    | None => ret []
    end in
  let* argv := read_args args in
  do on_world (add_dbt_invocation (callbacks, argv)) in
  let result := DbtCliRunner_invoke callbacks argv in
  if success result then ret result
  else
    match exception result with
    | Some e => throw e
    | None => throw (raise_for_result (OpenDbt.result result))
    end.

(** Line 91 of [invoke]:
    [self.project_callbacks + callbacks if callbacks else self.project_callbacks]. *)
Definition invoke_run_callbacks (callbacks : option loc) : M St (option loc) :=
  let* given := gets (λ s, callbacks_truthy callbacks s.2) in
  match callbacks with
  | Some l =>
      if given then
        let* pcs := project_callbacks in
        match pcs with
        | Some pl =>
            let* own := read_callbacks pl in
            let* given_callbacks := read_callbacks l in
            let* both := new_callbacks (own ++ given_callbacks) in
            ret (Some both)
        | None =>
            throw (MkExc TypeError
                     (Some "unsupported operand type(s) for +: 'NoneType' and 'list'") None)
        end
      else project_callbacks
  | None => project_callbacks
  end.

(** Lines 92-96 of [invoke]: the list object that is passed on. *)
Definition invoke_run_args (args : loc) : M St loc :=
  let* args_given := gets (λ s, args_truthy (Some args) s.2) in
  let* run_args := if args_given then ret args else new_args [] in
  let* current := read_args run_args in
  do (if negb (str_in "--project-dir" current)
      then let* dir := gets (λ s, project_dir s.1) in
           extend_args run_args ["--project-dir"; dir]
      else ret tt) in
  let* current := read_args run_args in
  let* profiles := gets (λ s, profiles_dir s.1) in
  do (match profiles with
      | Some dir =>
          if negb (str_in "--profiles-dir" current)
          then extend_args run_args ["--profiles-dir"; dir]
          else ret tt
      | None => ret tt
      end) in
  ret run_args.

Definition invoke (args : loc) (callbacks : option loc) : M St dbtRunnerResult :=
  let* run_callbacks := invoke_run_callbacks callbacks in
  let* run_args := invoke_run_args args in
  run run_args run_callbacks.

(** [type(result.result)] as the f-string prints it. *)
Definition type_repr (v : ResultValue) : string :=
  match v with
  | ResNone => "<class 'NoneType'>"
  | ResBool _ => "<class 'bool'>"
  | ResCatalog _ => "<class 'dbt.contracts.results.CatalogArtifact'>"
  | ResStrings _ => "<class 'list'>"
  | ResManifest _ => "<class 'dbt.contracts.graph.manifest.Manifest'>"
  | ResExecution _ => "<class 'dbt.contracts.results.RunExecutionResult'>"
  end.

Definition manifest (partial_parse no_write_manifest : bool) : M St Manifest :=
  let* args := new_args ["parse"] in
  do (if partial_parse then extend_args args ["--partial-parse"] else ret tt) in
  do (if no_write_manifest then extend_args args ["--no-write-json"] else ret tt) in
  let* result := invoke args None in
  match OpenDbt.result result with
  | ResManifest m => ret m
  | other =>
      throw (MkExc Exception
               (Some ("DBT execution did not return Manifest object. returned:"
                      +:+ type_repr other)) None)
  end.

Definition generate_docs (args : option loc) : M St unit :=
  let* given := gets (λ s, args_truthy args s.2) in
  let* _args :=
    match args with
    | Some l =>
        if given then
          let* tail := read_args l in
          new_args (["docs"; "generate"] ++ tail)
        else new_args []
    | None => new_args []
    end in
  do invoke _args None in
  ret tt.

End methods.

End OpenDbtCli.

Module OpenDbtProject.

Definition DEFAULT_TARGET : string := "dev".

(** [logger] is the state inherited from [OpenDbtLogger]; [args] refers to
    the stored list object. *)
Record obj := {
  logger : OpenDbtLogger.obj;
  project_dir : string;
  profiles_dir : option string;
  target : string;
  args : loc;
  cli : OpenDbtCli.obj;
}.

Definition set_logger (l : OpenDbtLogger.obj) (self : obj) : obj :=
  {| logger := l; project_dir := project_dir self; profiles_dir := profiles_dir self;
     target := target self; args := args self; cli := cli self |}.

Definition set_cli (c : OpenDbtCli.obj) (self : obj) : obj :=
  {| logger := logger self; project_dir := project_dir self;
     profiles_dir := profiles_dir self; target := target self; args := args self;
     cli := c |}.

Definition St : Type := obj * World.

(** [x if x else fallback] for an optional string. *)
Definition str_or (x : option string) (fallback : string) : string :=
  match x with
  | Some s => if str_truthy s then s else fallback
  | None => fallback
  end.

(** A method of [self.cli], run on the [cli] attribute. *)
Definition on_cli {A} (m : M OpenDbtCli.St A) : M St A :=
  λ s, let r := m (cli s.1, s.2) in (r.1, (set_cli r.2.1 s.1, r.2.2)).

(** [self.log.info(msg)]: the property is read, then the record is handed to
    the logger. *)
Definition log_info (msg : string) : M St unit :=
  λ s, let r := OpenDbtLogger.log (logger s.1) (logging s.2) in
       (Return tt,
        (set_logger r.1.2 s.1, add_info_record (r.1.1, msg) (set_logging r.2 s.2))).

Section methods.
Context `{BaseTool, Runtime}.

Definition __init__ (project_dir : string) (target : option string)
    (profiles_dir : option string) (args : option loc) : M (unit * World) obj :=
  let* given := gets (λ s, args_truthy args s.2) in
  let* stored :=
    match args with
    | Some l => if given then ret l else new_args []
    | None => new_args []
    end in
  let* c := OpenDbtCli.__init__ project_dir profiles_dir None in
  ret {| logger := OpenDbtLogger.new; project_dir := project_dir;
         profiles_dir := profiles_dir; target := str_or target DEFAULT_TARGET;
         args := stored; cli := c |}.

Definition project : M St PartialProject := on_cli OpenDbtCli.project.
Definition project_dict : M St (gmap string (gmap string YamlValue)) :=
  on_cli OpenDbtCli.project_dict.
Definition project_vars : M St (gmap string YamlValue) := on_cli OpenDbtCli.project_vars.

(** Lines 177-184 of [run]: the list object that holds the assembled
    arguments. *)
Definition assemble_run_args (command : string) (target : option string)
    (args : option loc) (write_json : bool) : M St loc :=
  let* given := gets (λ s, args_truthy args s.2) in
  let* run_args :=
    match args with
    | Some l => if given then ret l else new_args []
    | None => new_args []
    end in
  let* own_target := gets (λ s, OpenDbtProject.target s.1) in
  do extend_args run_args ["--target"; str_or target own_target] in
  let* dir := gets (λ s, project_dir s.1) in
  do extend_args run_args ["--project-dir"; dir] in
  let* profiles := gets (λ s, profiles_dir s.1) in
  do (match profiles with
      | Some dir => extend_args run_args ["--profiles-dir"; dir]
      | None => ret tt
      end) in
  let* current := read_args run_args in
  let* stored := gets (λ s, OpenDbtProject.args s.1) in
  let* stored_args := read_args stored in
  let* run_args := new_args ([command] ++ current ++ stored_args) in
  do (if write_json then
        let* current := read_args run_args in
        match list_remove "--no-write-json" current with
        | Some rest => on_world (set_arg_lists <[run_args := rest]>)
        | None => throw (MkExc ValueError (Some "list.remove(x): x not in list") None)
        end
      else ret tt) in
  ret run_args.

(** Lines 186-197 of [run]: the assembled arguments go to a subprocess or
    to [self.cli.invoke]. *)
Definition dispatch (run_args : loc) (use_subprocess : bool)
    : M St (option dbtRunnerResult) :=
  if use_subprocess then
    do log_info ("Working dir: " +:+ os_getcwd) in
    let py_executable := str_or sys_executable "python" in
    do log_info ("Python executable: " +:+ py_executable) in
    let* current := read_args run_args in
    let __command := [py_executable; "-m"; "opendbt"] ++ current in
    do log_info ("Running command (shell=False) `" +:+ join " " __command +:+ "`") in
    do on_world (add_subprocess_command __command) in
    do call (runcommand __command) in
    ret None
  else
    let* current := read_args run_args in
    do log_info ("Running `dbt " +:+ join " " current +:+ "`") in
    let* result := on_cli (OpenDbtCli.invoke run_args None) in
    ret (Some result).

Definition run (command : string) (target : option string) (args : option loc)
    (use_subprocess write_json : bool) : M St (option dbtRunnerResult) :=
  let* run_args := assemble_run_args command target args write_json in
  dispatch run_args use_subprocess.

Definition manifest (partial_parse no_write_manifest : bool) : M St Manifest :=
  on_cli (OpenDbtCli.manifest partial_parse no_write_manifest).

Definition generate_docs (args : option loc) : M St unit :=
  on_cli (OpenDbtCli.generate_docs args).

End methods.

End OpenDbtProject.

(** ** Definitions that follow the words of the specification *)

Module Spec.
Import DbtCommon.




(** The options [invoke] adds to an argument list. *)
Definition project_dir_option (dir : string) (args : list string) : list string :=
  if str_in "--project-dir" args then [] else ["--project-dir"; dir].

Definition profiles_dir_option (profiles : option string) (args : list string) : list string :=
  match profiles with
  | Some dir => if str_in "--profiles-dir" args then [] else ["--profiles-dir"; dir]
  | None => []
  end.

(** The list forwarded to the base tool: [args], then the project directory
    option when [args] lacks it, then the profiles directory option when one
    is configured and the list so far lacks it. *)
Definition forwarded (dir : string) (profiles : option string) (args : list string)
    : list string :=
  let with_project := args ++ project_dir_option dir args in
  with_project ++ profiles_dir_option profiles with_project.

(** What [run] makes of the base tool's result: the result itself when it
    reports success, otherwise an exception, the base tool's own when the
    result carries one. *)
Definition run_failure (r : dbtRunnerResult) : Exc :=
  match exception r with
  | Some e => e
  | None => OpenDbtCli.raise_for_result (result r)
  end.

Definition run_outcome (r : dbtRunnerResult) : Outcome dbtRunnerResult :=
  if success r then Return r else Raise (run_failure r).

(** The elements of the callback list a parameter refers to; none for
    [None]. *)
Definition callbacks_of (r : option loc) (w : World) : list Callback :=
  match r with
  | Some l => callback_lists w !!! l
  | None => []
  end.

(** The [vars] of a project: its ['vars'] entry, or the empty dictionary. *)
Definition project_vars_of (p : PartialProject) : gmap string YamlValue :=
  default ∅ (project_dict_of p !! "vars").

(** The arguments [manifest] starts from. *)
Definition parse_args (partial_parse no_write_manifest : bool) : list string :=
  ["parse"] ++ (if partial_parse then ["--partial-parse"] else [])
            ++ (if no_write_manifest then ["--no-write-json"] else []).

(** The options [OpenDbtProject.run] adds to its argument list: the target
    (the one given, else the instance's), the project directory, and the
    profiles directory when one is configured. *)
Definition run_options (self : OpenDbtProject.obj) (target : option string) : list string :=
  ["--target"; OpenDbtProject.str_or target (OpenDbtProject.target self)]
  ++ ["--project-dir"; OpenDbtProject.project_dir self]
  ++ match OpenDbtProject.profiles_dir self with
     | Some dir => ["--profiles-dir"; dir]
     | None => []
     end.

(** The first run result whose status is ['error']. *)
Definition first_error (results : list RunResult) : option RunResult :=
  List.find (λ r, String.eqb (status r) "error") results.

End Spec.

(** ** Concrete collaborators and states, for evaluation *)

Module Examples.

(** A base tool that loads the project [p] and answers every invocation
    with [r]. *)
Definition answering (p : PartialProject) (r : dbtRunnerResult) : BaseTool :=
  {| get_nearest_project_dir := Return;
     from_project_root := λ _ _, Return p;
     DbtCliRunner_invoke := λ _ _, r |}.

(** A runtime whose imports all succeed: the object a name resolves to is
    numbered by the length of the name. *)
Definition runtime : Runtime :=
  {| import_module_attribute_by_name := λ name, Return (ObjRef (String.length name));
     runcommand := λ _, Return tt;
     os_getcwd := "/work";
     sys_executable := Some "/usr/bin/python3" |}.

Definition no_vars : PartialProject := {| project_dict_of := ∅ |}.

Definition with_callbacks : PartialProject :=
  {| project_dict_of := {[ "vars" := {[ "dbt_callbacks" := YStr "pkg.First,pkg.Second" ]} ]} |}.

(** What the base tool reports when [dbt debug] finds a failing check: no
    exception, and [False] as the result. *)
Definition failed_check : dbtRunnerResult :=
  {| success := false; exception := None; result := ResBool false |}.

Definition succeeded : dbtRunnerResult :=
  {| success := true; exception := None; result := ResExecution [] |}.

Definition parsed : dbtRunnerResult :=
  {| success := true; exception := None; result := ResManifest (ObjRef 42) |}.

Definition no_loggers : Logging.Manager :=
  {| Logging.root := Logging.new_logger; Logging.loggerDict := ∅ |}.

(** A world with one argument list, at reference 0, and one callback list,
    at reference 0, holding one callback. *)
Definition world (args : list string) : World :=
  {| arg_lists := {[ 0 := args ]};
     callback_lists := {[ 0 := [ObjRef 7] ]};
     logging := no_loggers;
     info_records := [];
     dbt_invocations := [];
     subprocess_commands := [] |}.

(** A project object whose stored arguments are the list at reference 0. *)
Definition project (profiles : option string) : OpenDbtProject.obj :=
  {| OpenDbtProject.logger := OpenDbtLogger.new;
     OpenDbtProject.project_dir := "/proj";
     OpenDbtProject.profiles_dir := profiles;
     OpenDbtProject.target := "dev";
     OpenDbtProject.args := 0;
     OpenDbtProject.cli :=
       {| OpenDbtCli.project_dir := "/proj";
          OpenDbtCli.profiles_dir := profiles;
          OpenDbtCli._project := None;
          OpenDbtCli._user_callbacks := 0;
          OpenDbtCli._project_callbacks := None |} |}.

Definition cli (profiles : option string) : OpenDbtCli.obj :=
  {| OpenDbtCli.project_dir := "/proj";
     OpenDbtCli.profiles_dir := profiles;
     OpenDbtCli._project := None;
     OpenDbtCli._user_callbacks := 0;
     OpenDbtCli._project_callbacks := None |}.

End Examples.

(** ** Collaborators that fail, for evaluation *)

Module Scenarios.

(** A runtime in which only [pkg.First] can be imported. *)
Definition only_first : Runtime :=
  {| import_module_attribute_by_name := λ name,
       if String.eqb name "pkg.First" then Return (ObjRef 1)
       else Raise (MkExc ModuleNotFoundError (Some name) None);
     runcommand := λ _, Return tt;
     os_getcwd := "/work";
     sys_executable := None |}.

(** A base tool whose project loader raises. *)
Definition unloadable : BaseTool :=
  {| get_nearest_project_dir := Return;
     from_project_root := λ _ _, Raise (MkExc (OtherError "DbtProjectError") None None);
     DbtCliRunner_invoke := λ _ _, Examples.succeeded |}.

(** A project that declares two callbacks, run by a tool that succeeds. *)
Definition tool : BaseTool := Examples.answering Examples.with_callbacks Examples.succeeded.

Definition cli_state : OpenDbtCli.St :=
  (Examples.cli (Some "/profiles"), Examples.world ["run"]).

Definition project_state : OpenDbtProject.St :=
  (Examples.project (Some "/profiles"), Examples.world ["--select"; "orders"]).

End Scenarios.

(** ** Definitions used in the proofs *)

(** Unfolds the state transformers down to functions on the state. *)
Ltac py_unfold :=
  unfold bind, ret, throw, gets, modify, call, on_world, read_args, read_callbacks,
    new_args, new_callbacks, extend_args, append_callback in *.

(** What callback resolution leaves alone: every attribute of [self] but
    [_project] and [_project_callbacks], and every part of the world but the
    callback lists. *)
Record cli_frame (s s' : OpenDbtCli.St) : Prop := {
  frame_project_dir : OpenDbtCli.project_dir s'.1 = OpenDbtCli.project_dir s.1;
  frame_profiles_dir : OpenDbtCli.profiles_dir s'.1 = OpenDbtCli.profiles_dir s.1;
  frame_user_callbacks : OpenDbtCli._user_callbacks s'.1 = OpenDbtCli._user_callbacks s.1;
  frame_arg_lists : arg_lists s'.2 = arg_lists s.2;
  frame_logging : logging s'.2 = logging s.2;
  frame_info_records : info_records s'.2 = info_records s.2;
  frame_dbt_invocations : dbt_invocations s'.2 = dbt_invocations s.2;
  frame_subprocess_commands : subprocess_commands s'.2 = subprocess_commands s.2;
}.

Definition keeps {A} (m : M OpenDbtCli.St A) : Prop := ∀ s, cli_frame s (m s).2.

(** [l += extra] on the store of argument lists. *)
Definition heap_extend (l : loc) (extra : list string) (h : gmap loc (list string))
    : gmap loc (list string) :=
  <[l := (h !!! l) ++ extra]> h.

(** Lines 93-96 on the store: the two conditional extensions of the list
    at [l]. *)
Definition heap_with_options (dir : string) (profiles : option string) (l : loc)
    (h : gmap loc (list string)) : gmap loc (list string) :=
  let h1 := if str_in "--project-dir" (h !!! l) then h
            else heap_extend l ["--project-dir"; dir] h in
  match profiles with
  | Some d => if str_in "--profiles-dir" (h1 !!! l) then h1
              else heap_extend l ["--profiles-dir"; d] h1
  | None => h1
  end.

(** The state after the project has been loaded and cached. *)
Definition loaded (p : PartialProject) (s : OpenDbtCli.St) : OpenDbtCli.St :=
  (OpenDbtCli.set__project (Some p) s.1, s.2).

(** [[command] + run_args + self.args] as line 182 evaluates it: [run_args]
    is the list the options went into, and [self.args] is read after that,
    so it shows the options too when it is the same object. *)
Definition assembled_args (command : string) (target : option string)
    (args : option loc) (s : OpenDbtProject.St) : list string :=
  let h := arg_lists s.2 in
  let given := match args with Some l => h !!! l | None => [] end in
  let run_args :=
    match args with
    | Some l => if list_truthy given then l else fresh (dom h)
    | None => fresh (dom h)
    end in
  let current := given ++ Spec.run_options s.1 target in
  [command] ++ current ++ (<[run_args := current]> h !!! OpenDbtProject.args s.1).

(** The arguments that leave lines 177-184: with [write_json], the
    assembled list without its first [--no-write-json]; [None] when
    [remove] raises. *)
Definition handed_on (write_json : bool) (assembled : list string) : option (list string) :=
  if write_json then list_remove "--no-write-json" assembled else Some assembled.

(** ** Facts about the string functions *)

Section string_facts.

Lemma rsplit_last_None c s :
  rsplit_last c s = None ↔ contains_char c s = false.
Proof.
  induction s as [|d s IH]; simpl; [done|].
  destruct (rsplit_last c s) as [[front back]|].
  - destruct (Ascii.eqb d c); [done|].
    split; [done|]. intros Hs. apply IH in Hs. done.
  - destruct (Ascii.eqb d c); [done|].
    split; [intros _; by apply IH|done].
Qed.

(** [rsplit_last] cuts at the last occurrence: the two pieces put the string
    back together around the separator, and the second has no separator. *)
Lemma rsplit_last_Some c s front back :
  rsplit_last c s = Some (front, back) →
  s = front +:+ String c back ∧ contains_char c back = false.
Proof.
  revert front. induction s as [|d s IH]; intros front; simpl; [done|].
  destruct (rsplit_last c s) as [[front' back']|] eqn:Hs.
  - intros [= <- <-]. destruct (IH front' eq_refl) as [-> Hback].
    by split.
  - destruct (Ascii.eqb_spec d c) as [->|]; [|done].
    intros [= <- <-]. split; [done|]. by apply rsplit_last_None.
Qed.

Lemma rsplit_last_is_Some c s :
  contains_char c s = true → is_Some (rsplit_last c s).
Proof.
  intros Hs. destruct (rsplit_last c s) eqn:E; [by eexists|].
  apply rsplit_last_None in E. congruence.
Qed.





End string_facts.

(** ** [dbtcommon.py] *)

Section dbtcommon.
Import DbtCommon.



(** The claim "[ValueError] if and only if the name has no dot" fails for
    the name [.foo]: it has a dot, its module part is empty, and importing
    the empty module name is itself a [ValueError]. *)
Lemma dotted_name_with_empty_module_raises_ValueError :
  ¬ (raises ValueError (@get_custom_adapter_class_by_name (CPython ∅) ".foo")
     ↔ contains_char "." ".foo" = false).
Proof.
  intros [Hraise _]. vm_compute in Hraise. by specialize (Hraise eq_refl).
Qed.

(** C2, as amended.  A name without a dot raises [ValueError].  A name with
    a dot is cut at its last dot into a module path and an attribute name;
    the module is imported and its attribute of that name is returned; a
    [ModuleNotFoundError] of the import comes out as an [Exception] whose
    cause it is, and any other exception of the import or of the attribute
    lookup comes out as it is. *)
Theorem get_custom_adapter_class_by_name_outcome `{Importlib} (name : string) :
  if contains_char "." name then
    ∃ module_path attr,
      name = module_path +:+ String "." attr ∧
      contains_char "." attr = false ∧
      get_custom_adapter_class_by_name name =
        match import_module module_path with
        | Return m => getattr m attr
        | Raise e =>
            if decide (exc_class e = ModuleNotFoundError)
            then Raise (MkExc Exception (Some (module_not_found_msg name)) (Some e))
            else Raise e
        end
  else raises ValueError (get_custom_adapter_class_by_name name).
Proof.
  unfold get_custom_adapter_class_by_name.
  destruct (contains_char "." name) eqn:Hdot; simpl; [|done].
  destruct (rsplit_last_is_Some _ _ Hdot) as [[module_path attr] Hsplit].
  destruct (rsplit_last_Some _ _ _ _ Hsplit) as [Hname Hattr].
  exists module_path, attr. split_and!; [done..|].
  unfold rsplit1. rewrite Hsplit. unfold except_module_not_found.
  destruct (import_module module_path) as [m|e]; [|done].
  unfold getattr. by destruct (m !! attr).
Qed.

End dbtcommon.

(** ** [OpenDbtLogger] *)

Section logger.
Import Logging OpenDbtLogger.

Lemma find_getLogger name m : find name (getLogger name m).2 = find name m.
Proof.
  unfold getLogger, find. destruct (loggerDict m !! name) eqn:E; simpl.
  - by rewrite E.
  - by rewrite lookup_insert_eq.
Qed.

Lemma hasHandlers_getLogger name m :
  hasHandlers name (getLogger name m).2 = hasHandlers name m.
Proof.
  unfold hasHandlers. rewrite find_getLogger.
  unfold getLogger. by destruct (loggerDict m !! name).
Qed.

Lemma find_addHandler name h m :
  handlers (find name (addHandler name h m)) = handlers (find name m) ++ [h].
Proof. unfold addHandler, find at 1. simpl. by rewrite lookup_insert_eq. Qed.

(** C7. The first access of [log] on an instance returns the logger named
    [opendbt] and adds the stream handler exactly when that logger has no
    handlers (of its own or of the root it propagates to), so at most one
    handler is added; every later access, whatever has happened to the
    logging module in between, returns the same logger, leaves the instance
    as it is and changes nothing in the logging module: initialisation
    happens on the first access only. *)
Theorem log_is_a_singleton (m later : Manager) :
  let first := log new m in
  let self := first.1.2 in
  first.1.1 = "opendbt" ∧
  handlers (find "opendbt" first.2) =
    handlers (find "opendbt" m) ++
    (if hasHandlers "opendbt" m then [] else [stdout_handler]) ∧
  root first.2 = root m ∧
  log self later = ("opendbt", self, later).
Proof.
  unfold log, new. simpl _log. cbv zeta.
  pose proof (hasHandlers_getLogger "opendbt" m) as Hh.
  pose proof (find_getLogger "opendbt" m) as Hf.
  destruct (getLogger "opendbt" m) as [logger m1] eqn:Hget.
  assert (logger = "opendbt") as ->.
  { unfold getLogger in Hget. destruct (loggerDict m !! "opendbt"); by inversion Hget. }
  assert (root m1 = root m) as Hroot.
  { unfold getLogger in Hget. destruct (loggerDict m !! "opendbt"); by inversion Hget. }
  simpl in Hh, Hf. rewrite Hh.
  destruct (hasHandlers "opendbt" m); simpl.
  - rewrite Hf, app_nil_r. done.
  - rewrite find_addHandler, Hf. done.
Qed.

End logger.

(** ** [OpenDbtCli] *)

Create HintDb keeps discriminated.

Section frame.

Lemma cli_frame_refl s : cli_frame s s.
Proof. by split. Qed.

Lemma cli_frame_trans s1 s2 s3 : cli_frame s1 s2 → cli_frame s2 s3 → cli_frame s1 s3.
Proof. intros [] []. split; congruence. Qed.

Lemma keeps_ret {A} (a : A) : keeps (ret a).
Proof. intros s. apply cli_frame_refl. Qed.

Lemma keeps_throw {A} e : keeps (throw (A := A) e).
Proof. intros s. apply cli_frame_refl. Qed.

Lemma keeps_gets {A} (f : OpenDbtCli.St → A) : keeps (gets f).
Proof. intros s. apply cli_frame_refl. Qed.

Lemma keeps_call {A} (o : Outcome A) : keeps (call o).
Proof. intros s. apply cli_frame_refl. Qed.

Lemma keeps_bind {A B} (m : M OpenDbtCli.St A) (k : A → M OpenDbtCli.St B) :
  keeps m → (∀ a, keeps (k a)) → keeps (bind m k).
Proof.
  intros Hm Hk s. unfold bind. specialize (Hm s).
  destruct (m s) as [[a|e] s'] eqn:E; simpl in *; [|done].
  eapply cli_frame_trans; [done|apply Hk].
Qed.

Lemma keeps_for_each {A} (l : list A) (body : A → M OpenDbtCli.St unit) :
  (∀ a, keeps (body a)) → keeps (for_each l body).
Proof.
  intros Hbody. induction l as [|a l IH]; simpl.
  - apply keeps_ret.
  - apply keeps_bind; [apply Hbody|done].
Qed.

Lemma keeps_if {A} (b : bool) (m1 m2 : M OpenDbtCli.St A) :
  keeps m1 → keeps m2 → keeps (if b then m1 else m2).
Proof. by destruct b. Qed.

Lemma keeps_set__project p :
  keeps (modify (λ s, (OpenDbtCli.set__project p s.1, s.2))).
Proof. intros s. by split. Qed.

Lemma keeps_set__project_callbacks (f : OpenDbtCli.St → option loc) :
  keeps (modify (λ s, (OpenDbtCli.set__project_callbacks (f s) s.1, s.2))).
Proof. intros s. by split. Qed.

Lemma keeps_read_callbacks l : keeps (read_callbacks l).
Proof. apply keeps_gets. Qed.

Lemma keeps_append_callback l x : keeps (append_callback l x).
Proof. intros s. by split. Qed.

Lemma keeps_new_callbacks v : keeps (new_callbacks v).
Proof. intros s. by split. Qed.

End frame.

#[local] Hint Resolve keeps_ret keeps_throw keeps_gets keeps_call keeps_for_each
  keeps_if keeps_set__project keeps_set__project_callbacks keeps_read_callbacks
  keeps_append_callback keeps_new_callbacks : keeps.
#[local] Hint Extern 2 (keeps (bind _ _)) => apply keeps_bind; [|intros ?] : keeps.
#[local] Hint Extern 3 (keeps (match ?x with _ => _ end)) => destruct x : keeps.

Section cli_facts.
Context `{BaseTool, Runtime}.
Import OpenDbtCli.

Lemma keeps_project : keeps project.
Proof. unfold project. auto 10 with keeps. Qed.

Lemma keeps_getitem {V} (d : gmap string V) key : keeps (getitem d key).
Proof. unfold getitem. auto with keeps. Qed.

Lemma keeps_project_vars : keeps project_vars.
Proof.
  pose proof keeps_project. pose proof @keeps_getitem.
  unfold project_vars, project_dict. auto 10 with keeps.
Qed.

Lemma keeps_the_project_callbacks : keeps the_project_callbacks.
Proof. unfold the_project_callbacks. auto with keeps. Qed.

Lemma keeps_resolve_callback name : keeps (resolve_callback name).
Proof.
  pose proof keeps_the_project_callbacks.
  unfold resolve_callback. auto with keeps.
Qed.

Lemma keeps_project_callbacks : keeps project_callbacks.
Proof.
  pose proof keeps_project_vars. pose proof @keeps_getitem.
  pose proof keeps_resolve_callback.
  unfold project_callbacks. auto 12 with keeps.
Qed.

Lemma keeps_invoke_run_callbacks callbacks : keeps (invoke_run_callbacks callbacks).
Proof.
  pose proof keeps_project_callbacks.
  unfold invoke_run_callbacks. auto 12 with keeps.
Qed.

End cli_facts.

Section cli_steps.
Context `{BaseTool, Runtime}.
Import OpenDbtCli.

(** [run] hands the two lists to the base tool, once, and turns its result
    into a return or a raise. *)
Lemma run_eq {O} (args : loc) (callbacks : option loc) (s : O * World) :
  run args callbacks s =
    let cbs := Spec.callbacks_of callbacks s.2 in
    let argv := arg_lists s.2 !!! args in
    (Spec.run_outcome (DbtCliRunner_invoke cbs argv),
     (s.1, add_dbt_invocation (cbs, argv) s.2)).
Proof.
  unfold run, Spec.run_outcome, Spec.run_failure, Spec.callbacks_of, callbacks_truthy.
  py_unfold. simpl.
  destruct callbacks as [l|]; simpl.
  - destruct (callback_lists s.2 !!! l) eqn:E; simpl; rewrite ?E;
      (destruct (success _); [done|]; by destruct (exception _)).
  - destruct (success _); [done|]. by destruct (exception _).
Qed.

Lemma lookup_total_nonempty (h : gmap loc (list string)) (l : loc) :
  h !!! l ≠ [] → l ∈ dom h.
Proof.
  intros Hl. apply elem_of_dom. destruct (h !! l) eqn:E; [by eexists|].
  rewrite lookup_total_alt, E in Hl. done.
Qed.


Lemma heap_with_options_lookup dir profiles l h :
  heap_with_options dir profiles l h !!! l = Spec.forwarded dir profiles (h !!! l).
Proof.
  unfold heap_with_options, heap_extend, Spec.forwarded, Spec.project_dir_option,
    Spec.profiles_dir_option.
  destruct (str_in "--project-dir" (h !!! l)); destruct profiles as [d|];
    rewrite ?lookup_total_insert_eq, ?app_nil_r; try done.
  - destruct (str_in "--profiles-dir" (h !!! l));
      by rewrite ?lookup_total_insert_eq, ?app_nil_r.
  - destruct (str_in "--profiles-dir" _);
      by rewrite ?lookup_total_insert_eq, ?app_nil_r.
Qed.

Lemma heap_with_options_other dir profiles l h l' :
  l' ≠ l → heap_with_options dir profiles l h !! l' = h !! l'.
Proof.
  intros Hne. unfold heap_with_options, heap_extend.
  destruct (str_in "--project-dir" (h !!! l)); destruct profiles as [d|]; try done;
    repeat (case_match; try done); by rewrite ?lookup_insert_ne.
Qed.

Lemma heap_with_options_dom dir profiles l h :
  l ∈ dom h → dom (heap_with_options dir profiles l h) = dom h.
Proof.
  intros Hl. unfold heap_with_options, heap_extend.
  destruct (str_in "--project-dir" (h !!! l)); destruct profiles as [d|]; try done;
    repeat (case_match; try done); rewrite ?dom_insert_L; set_solver.
Qed.

Lemma invoke_run_args_heap (args : loc) (s : St) :
  let h := arg_lists s.2 in
  let fresh_list := fresh (dom h) in
  let options := heap_with_options (project_dir s.1) (profiles_dir s.1) in
  invoke_run_args args s =
    if list_truthy (h !!! args)
    then (Return args, (s.1, set_arg_lists (options args) s.2))
    else (Return fresh_list,
          (s.1, set_arg_lists (λ h, options fresh_list (<[fresh_list := []]> h)) s.2)).
Proof.
  destruct s as [self [h cl lg ir di sc]]. cbv zeta. simpl.
  unfold invoke_run_args, args_truthy, heap_with_options, heap_extend, set_arg_lists.
  py_unfold. simpl.
  destruct (list_truthy (h !!! args)) eqn:Hgiven; simpl.
  - destruct (str_in "--project-dir" (h !!! args)) eqn:Hpd; simpl;
      destruct (profiles_dir self) as [dir|]; simpl; try done.
    + by destruct (str_in "--profiles-dir" (h !!! args)).
    + unfold set_arg_lists; simpl. by destruct (str_in "--profiles-dir" _).
  - unfold set_arg_lists; simpl.
    destruct (str_in "--project-dir" _) eqn:Hpd; simpl;
      destruct (profiles_dir self) as [dir|]; simpl; try done.
    + by destruct (str_in "--profiles-dir" _).
    + by destruct (str_in "--profiles-dir" _).
Qed.

Lemma invoke_callbacks_raise args callbacks (s s1 : St) e :
  invoke_run_callbacks callbacks s = (Raise e, s1) →
  invoke args callbacks s = (Raise e, s1) ∧ cli_frame s s1.
Proof.
  intros Hrc. pose proof (keeps_invoke_run_callbacks callbacks s) as F.
  rewrite Hrc in F. split; [|done]. unfold invoke, bind. by rewrite Hrc.
Qed.

(** [invoke] once line 91 has produced the callbacks: the base tool is
    invoked once, with the forwarded arguments; the list that was passed on
    holds them; no other list object has changed. *)
Lemma invoke_after_callbacks args callbacks (s s1 : St) rc :
  invoke_run_callbacks callbacks s = (Return rc, s1) →
  let h := arg_lists s.2 in
  let given := h !!! args in
  let run_args := if list_truthy given then args else fresh (dom h) in
  let argv := Spec.forwarded (project_dir s.1) (profiles_dir s.1) given in
  let cbs := Spec.callbacks_of rc s1.2 in
  let r := invoke args callbacks s in
  r.1 = Spec.run_outcome (DbtCliRunner_invoke cbs argv) ∧
  r.2.1 = s1.1 ∧
  dbt_invocations r.2.2 = dbt_invocations s.2 ++ [(cbs, argv)] ∧
  arg_lists r.2.2 !!! run_args = argv ∧
  (∀ l, l ≠ run_args → arg_lists r.2.2 !! l = h !! l) ∧
  (list_truthy given = true → dom (arg_lists r.2.2) = dom h) ∧
  subprocess_commands r.2.2 = subprocess_commands s.2 ∧
  logging r.2.2 = logging s.2 ∧
  info_records r.2.2 = info_records s.2.
Proof.
  intros Hrc. pose proof (keeps_invoke_run_callbacks callbacks s) as F.
  rewrite Hrc in F. destruct F as [Fdir Fprof _ Fargs Flog Finfo Fdbt Fsub].
  simpl in *. cbv zeta.
  unfold invoke, bind. rewrite Hrc, invoke_run_args_heap. cbv zeta.
  rewrite Fargs, Fdir, Fprof.
  destruct (list_truthy (arg_lists s.2 !!! args)) eqn:Hgiven; rewrite run_eq; simpl.
  - rewrite Fargs, heap_with_options_lookup, Fdbt, Fsub, Flog, Finfo.
    split_and!; try done.
    + intros l Hl. by apply heap_with_options_other.
    + intros _. apply heap_with_options_dom, lookup_total_nonempty.
      by destruct (arg_lists s.2 !!! args).
  - rewrite Fargs, heap_with_options_lookup, lookup_total_insert_eq, Fdbt, Fsub, Flog, Finfo.
    assert (arg_lists s.2 !!! args = []) as -> by (by destruct (arg_lists s.2 !!! args)).
    split_and!; try done.
    intros l Hl. by rewrite heap_with_options_other, lookup_insert_ne.
Qed.

End cli_steps.

Section cli_run.
Context `{BaseTool}.
Import OpenDbtCli.

Lemma raise_error_message_first_error (results : list RunResult) :
  raise_error_message results =
    match Spec.first_error results with
    | Some r => MkExc DbtRuntimeError (message r) None
    | None => execution_failed
    end.
Proof.
  induction results as [|r results IH]; simpl; [done|].
  unfold Spec.first_error in *. simpl.
  by destruct (String.eqb (status r) "error").
Qed.

(** X1. [run] in full, for every kind of result: the result is returned exactly
    when it reports success; otherwise the call raises the base tool's
    exception when there is one, and otherwise, over run results, a
    [DbtRuntimeError] with the message of the first result whose status is
    ['error'], or with the generic message when there is none. *)
Lemma run_outcome_cases {O} (args : loc) (callbacks : option loc) (s : O * World) :
  let r := DbtCliRunner_invoke (Spec.callbacks_of callbacks s.2) (arg_lists s.2 !!! args) in
  (run args callbacks s).1 =
    if success r then Return r
    else match exception r with
         | Some e => Raise e
         | None =>
             match result r with
             | ResExecution results =>
                 Raise (MkExc DbtRuntimeError
                          match Spec.first_error results with
                          | Some failed => message failed
                          | None => Some "DBT execution failed!"
                          end None)
             | other => Raise (raise_for_result other)
             end
         end.
Proof.
  rewrite run_eq. cbv zeta. simpl. unfold Spec.run_outcome, Spec.run_failure.
  destruct (success _); [done|]. destruct (exception _); [done|].
  destruct (result _) as [| | | | |results]; try done.
  simpl. rewrite raise_error_message_first_error.
  by destruct (Spec.first_error results).
Qed.

End cli_run.

(** C1, at an input where the code leaves the claim.  When the base tool
    reports a failure without an exception and its result is not a
    collection of run results (here [False], as for a failed check), [run]
    raises [TypeError], not [DbtRuntimeError]. *)
Theorem run_raises_TypeError_for_failed_check (args : loc) (w : World) :
  (@OpenDbtCli.run (Examples.answering Examples.no_vars Examples.failed_check)
     unit args None (tt, w)).1
  = Raise (MkExc TypeError (Some "'bool' object is not iterable") None).
Proof. reflexivity. Qed.

Section cli_invoke.
Context `{BaseTool, Runtime}.
Import OpenDbtCli.

Lemma str_in_app x (l1 l2 : list string) : str_in x (l1 ++ l2) = str_in x l1 || str_in x l2.
Proof.
  unfold str_in. destruct (bool_decide (x ∈ l1)) eqn:E1; simpl.
  - apply bool_decide_eq_true. apply bool_decide_eq_true in E1. set_solver.
  - apply bool_decide_eq_false in E1.
    destruct (bool_decide (x ∈ l2)) eqn:E2.
    + apply bool_decide_eq_true. apply bool_decide_eq_true in E2. set_solver.
    + apply bool_decide_eq_false. apply bool_decide_eq_false in E2. set_solver.
Qed.

(** Unless the project directory is itself the string [--profiles-dir], the
    second test sees that string in the list so far exactly when it is in
    [args]. *)
Lemma forwarded_by_args dir profiles (args : list string) :
  dir ≠ "--profiles-dir" →
  Spec.forwarded dir profiles args =
    args ++ Spec.project_dir_option dir args ++ Spec.profiles_dir_option profiles args.
Proof.
  intros Hdir. unfold Spec.forwarded. rewrite <- app_assoc. do 2 f_equal.
  unfold Spec.profiles_dir_option. destruct profiles as [p|]; [|done].
  rewrite str_in_app. unfold Spec.project_dir_option.
  destruct (str_in "--project-dir" args); simpl; [by rewrite orb_false_r|].
  assert (str_in "--profiles-dir" ["--project-dir"; dir] = false) as ->.
  { apply bool_decide_eq_false. set_solver. }
  by rewrite orb_false_r.
Qed.


End cli_invoke.

Section cli_callbacks.
Context `{BaseTool, Runtime}.
Import OpenDbtCli.

(** A new instance holds the caller's own callback list when that is
    non-empty, and has neither a project nor project callbacks yet. *)
Lemma init_keeps_user_callbacks dir profiles (l : loc) (w : World) nearest :
  get_nearest_project_dir dir = Return nearest →
  callback_lists w !!! l ≠ [] →
  __init__ dir profiles (Some l) ((), w) =
    (Return {| project_dir := nearest; profiles_dir := profiles; _project := None;
               _user_callbacks := l; _project_callbacks := None |},
     ((), w)).
Proof.
  intros Hdir Hl. unfold __init__, callbacks_truthy. py_unfold. simpl. rewrite Hdir.
  by destruct (callback_lists w !!! l).
Qed.

Lemma project_loads (s : St) p :
  (project s).1 = Return p → project s = (Return p, loaded p s).
Proof.
  destruct s as [self w]. unfold project, loaded. py_unfold. simpl.
  destruct (_project self) as [p'|] eqn:Hp; simpl.
  - intros [= ->]. do 2 f_equal. destruct self; simpl in *. by subst.
  - destruct (from_project_root _ _); simpl; [|done]. by intros [= ->].
Qed.

Lemma project_loaded (s : St) p : (project (loaded p s)).1 = Return p.
Proof. done. Qed.

Lemma loaded_loaded p (s : St) : loaded p (loaded p s) = loaded p s.
Proof. done. Qed.

(** [project] looks at [_project] and [project_dir] only. *)
Lemma project_set__project_callbacks (s : St) r :
  (project (set__project_callbacks r s.1, s.2)).1 = (project s).1.
Proof.
  destruct s as [self w]. unfold project. py_unfold. simpl.
  destruct (_project self); [done|]. by destruct (from_project_root _ _).
Qed.

Lemma project_vars_loads (s : St) p :
  (project s).1 = Return p →
  project_vars s = (Return (Spec.project_vars_of p), loaded p s).
Proof.
  intros Hp. unfold project_vars, project_dict, bind at 1 2.
  rewrite (project_loads _ _ Hp). unfold ret at 1.
  unfold Spec.project_vars_of.
  destruct (project_dict_of p !! "vars") as [vars|] eqn:Hvars.
  - rewrite bool_decide_eq_true_2 by (apply elem_of_dom; by eexists).
    unfold bind. rewrite (project_loads _ _ (project_loaded s p)), loaded_loaded.
    unfold ret, getitem. by rewrite Hvars.
  - rewrite bool_decide_eq_false_2; [done|].
    by apply not_elem_of_dom.
Qed.

(** The loop of [project_callbacks]: every name that resolves adds its
    callback at the end of the list. *)
Lemma resolve_loop (names : list string) (cbs : list Callback) self w l :
  _project_callbacks self = Some l →
  Forall2 (λ name cb, import_module_attribute_by_name name = Return cb) names cbs →
  ∃ w', for_each names resolve_callback (self, w) = (Return tt, (self, w')) ∧
        callback_lists w' !!! l = callback_lists w !!! l ++ cbs.
Proof.
  intros Hl Hall. revert w. induction Hall as [|name cb names cbs Hname _ IH]; intros w.
  - exists w. by rewrite app_nil_r.
  - destruct (IH (set_callback_lists (λ h, <[l := h !!! l ++ [cb]]> h) w)) as (w' & Hloop & Hw').
    exists w'. split.
    + simpl. unfold bind at 1, resolve_callback, bind at 1, call. rewrite Hname.
      unfold bind at 1, the_project_callbacks, bind at 1, gets. simpl. rewrite Hl.
      unfold ret at 1, append_callback, on_world, modify. simpl. apply Hloop.
    + rewrite Hw'. simpl. by rewrite lookup_total_insert_eq, <- app_assoc.
Qed.

(** The first access, step by step: the attribute is bound to the user's
    list object, the project is loaded, and the loop runs over the names. *)
Lemma project_callbacks_first_eq (s : St) (p : PartialProject) :
  _project_callbacks s.1 = None →
  (project s).1 = Return p →
  let s0 := loaded p (set__project_callbacks (Some (_user_callbacks s.1)) s.1, s.2) in
  project_callbacks s =
    match Spec.project_vars_of p !! "dbt_callbacks" with
    | None => (Return (Some (_user_callbacks s.1)), s0)
    | Some names =>
        bind (for_each (split "," (py_str names)) resolve_callback)
             (λ _, gets (λ s, _project_callbacks s.1)) s0
    end.
Proof.
  intros Hfirst Hp. cbv zeta.
  unfold project_callbacks, bind at 1, gets at 1. rewrite Hfirst. simpl.
  unfold bind at 1 2, modify at 1. simpl.
  set (s0 := (set__project_callbacks (Some (_user_callbacks s.1)) s.1, s.2)).
  assert ((project s0).1 = Return p) as Hp0.
  { subst s0. by rewrite project_set__project_callbacks. }
  unfold bind at 1. rewrite (project_vars_loads _ _ Hp0).
  destruct (Spec.project_vars_of p !! "dbt_callbacks") as [names|] eqn:Hnames.
  - rewrite bool_decide_eq_true_2 by (apply elem_of_dom; by eexists).
    unfold bind at 1. rewrite (project_vars_loads _ _ (project_loaded s0 p)), loaded_loaded.
    unfold bind at 1, getitem. rewrite Hnames. unfold ret at 1.
    unfold bind. by destruct (for_each _ _ _) as [[[]|e] s1].
  - rewrite bool_decide_eq_false_2 by (by apply not_elem_of_dom).
    done.
Qed.


End cli_callbacks.

Section cli_commands.
Context `{BaseTool, Runtime}.
Import OpenDbtCli.

(** [manifest] builds a new list object holding [parse] and the flags, and
    calls [invoke] on it. *)
Lemma manifest_eq (partial_parse no_write_manifest : bool) (s : St) :
  let args := fresh (dom (arg_lists s.2)) in
  manifest partial_parse no_write_manifest s =
    bind (invoke args None)
      (λ res,
         match result res with
         | ResManifest m => ret m
         | other =>
             throw (MkExc Exception
                      (Some ("DBT execution did not return Manifest object. returned:"
                             +:+ type_repr other)) None)
         end)
      (s.1, set_arg_lists <[args := Spec.parse_args partial_parse no_write_manifest]> s.2).
Proof.
  destruct s as [self w]. cbv zeta. simpl.
  unfold manifest. unfold bind at 1, new_args, bind at 1 2, gets, on_world, modify, ret.
  simpl. unfold bind at 1.
  assert (∀ (b : bool) (extra : list string) (w' : World) (l : loc),
            (if b then extend_args (O := obj) l extra else OpenDbt.ret ())  (self, w') =
            (Return (), (self, set_arg_lists
                                 (λ h, if b then <[l := h !!! l ++ extra]> h else h) w'))) as Hif.
  { intros [] extra w' l; [done|]. unfold OpenDbt.ret. by destruct w'. }
  rewrite Hif. unfold bind at 1. rewrite Hif.
  f_equal. f_equal. destruct w. unfold set_arg_lists. simpl. f_equal.
  unfold Spec.parse_args.
  destruct partial_parse, no_write_manifest; simpl;
    by rewrite ?lookup_total_insert_eq, ?insert_insert_eq.
Qed.

(** C6. For all boolean options, [manifest] hands [invoke] a list that
    starts with [parse] and holds [--partial-parse] exactly when
    [partial_parse] is true and [--no-write-json] exactly when
    [no_write_manifest] is true.  Once line 91 of [invoke] has produced the
    callbacks, the base tool is invoked once with that list and the
    directory options after it; [manifest] returns the result of the
    invocation exactly when the invocation succeeds with a [Manifest], and
    raises otherwise: an [Exception] of its own when the invocation succeeds
    with anything else, the exception of [run] when it fails. *)
Theorem manifest_invokes_parse (partial_parse no_write_manifest : bool) (s : St) :
  let parse :=
    ["parse"] ++ (if partial_parse then ["--partial-parse"] else [])
              ++ (if no_write_manifest then ["--no-write-json"] else []) in
  let dir := project_dir s.1 in
  let argv :=
    parse ++ ["--project-dir"; dir]
          ++ Spec.profiles_dir_option (profiles_dir s.1) (parse ++ ["--project-dir"; dir]) in
  let args := fresh (dom (arg_lists s.2)) in
  let r := manifest partial_parse no_write_manifest s in
  match invoke_run_callbacks None (s.1, set_arg_lists <[args := parse]> s.2) with
  | (Return rc, s1) =>
      let cbs := Spec.callbacks_of rc s1.2 in
      let res := DbtCliRunner_invoke cbs argv in
      dbt_invocations r.2.2 = dbt_invocations s.2 ++ [(cbs, argv)] ∧
      r.1 = if success res then
              match result res with
              | ResManifest m => Return m
              | other =>
                  Raise (MkExc Exception
                           (Some ("DBT execution did not return Manifest object. returned:"
                                  +:+ type_repr other)) None)
              end
            else Raise (Spec.run_failure res)
  | (Raise e, _) => r.1 = Raise e ∧ dbt_invocations r.2.2 = dbt_invocations s.2
  end.
Proof.
  cbv zeta. rewrite manifest_eq. cbv zeta. fold (Spec.parse_args partial_parse no_write_manifest).
  set (parse := Spec.parse_args partial_parse no_write_manifest).
  set (args := fresh (dom (arg_lists s.2))).
  set (s0 := (s.1, set_arg_lists <[args := parse]> s.2)).
  assert (arg_lists s0.2 !!! args = parse) as Hparse.
  { subst s0. simpl. by rewrite lookup_total_insert_eq. }
  assert (Spec.forwarded (project_dir s.1) (profiles_dir s.1) parse =
            parse ++ ["--project-dir"; project_dir s.1]
            ++ Spec.profiles_dir_option (profiles_dir s.1)
                 (parse ++ ["--project-dir"; project_dir s.1])) as Hfwd.
  { unfold Spec.forwarded. rewrite <- app_assoc.
    assert (Spec.project_dir_option (project_dir s.1) parse = ["--project-dir"; project_dir s.1]) as ->; [|done].
    subst parse. by destruct partial_parse, no_write_manifest. }
  destruct (invoke_run_callbacks None s0) as [[rc|e] s1] eqn:Hrc.
  - destruct (invoke_after_callbacks args _ _ _ _ Hrc) as (Hout & _ & Hinv & _).
    rewrite Hparse in Hout, Hinv. change (project_dir s0.1) with (project_dir s.1) in *.
    change (profiles_dir s0.1) with (profiles_dir s.1) in *. rewrite Hfwd in Hout, Hinv.
    unfold bind. destruct (invoke args None s0) as [o s2]. simpl in *. subst o.
    unfold Spec.run_outcome. destruct (success _); simpl.
    + split; [by destruct (result _)|]. by destruct (result _).
    + done.
  - destruct (invoke_callbacks_raise args _ _ _ _ Hrc) as [Hinv F].
    unfold bind. rewrite Hinv. split; [done|]. apply F.
Qed.

(** C10. The list [generate_docs] passes to [invoke] is a new list object;
    it is empty when [args] is [None] or an empty list, and only for a
    non-empty [args] is it [docs], [generate] and then the elements of
    [args].  So, for [None] or an empty list, what the base tool receives
    is the directory options alone. *)
Theorem generate_docs_passes (args : option loc) (s : St) :
  let given := match args with Some l => arg_lists s.2 !!! l | None => [] end in
  let passed := if list_truthy given then "docs" :: "generate" :: given else [] in
  let _args := fresh (dom (arg_lists s.2)) in
  let s0 := (s.1, set_arg_lists <[_args := passed]> s.2) in
  generate_docs args s = bind (invoke _args None) (λ _, ret tt) s0 ∧
  arg_lists s0.2 !!! _args = passed ∧
  match invoke_run_callbacks None s0 with
  | (Return rc, s1) =>
      dbt_invocations (generate_docs args s).2.2 =
        dbt_invocations s.2
        ++ [(Spec.callbacks_of rc s1.2,
             Spec.forwarded (project_dir s.1) (profiles_dir s.1) passed)]
  | (Raise e, _) => dbt_invocations (generate_docs args s).2.2 = dbt_invocations s.2
  end.
Proof.
  cbv zeta.
  set (given := match args with Some l => arg_lists s.2 !!! l | None => [] end).
  set (passed := if list_truthy given then "docs" :: "generate" :: given else []).
  set (_args := fresh (dom (arg_lists s.2))).
  set (s0 := (s.1, set_arg_lists <[_args := passed]> s.2)).
  assert (generate_docs args s = bind (invoke _args None) (λ _, ret tt) s0) as Heq.
  { destruct s as [self w]. unfold generate_docs, args_truthy.
    unfold bind at 1, gets at 1. simpl. subst s0 passed given _args. simpl.
    destruct args as [l|]; simpl; [|done].
    by destruct (list_truthy (arg_lists w !!! l)). }
  assert (arg_lists s0.2 !!! _args = passed) as Hpassed.
  { subst s0. simpl. by rewrite lookup_total_insert_eq. }
  split_and!; [done..|]. rewrite Heq.
  destruct (invoke_run_callbacks None s0) as [[rc|e] s1] eqn:Hrc.
  - destruct (invoke_after_callbacks _args _ _ _ _ Hrc) as (_ & _ & Hinv & _).
    rewrite Hpassed in Hinv. unfold bind.
    destruct (invoke _args None s0) as [[x|e] s2]; simpl in *; by rewrite Hinv.
  - destruct (invoke_callbacks_raise _args _ _ _ _ Hrc) as [Hinv F].
    unfold bind. rewrite Hinv. simpl. apply F.
Qed.

End cli_commands.

(** ** [OpenDbtProject] *)

Section list_remove_facts.

Lemma list_remove_None x (l : list string) : list_remove x l = None ↔ x ∉ l.
Proof.
  induction l as [|y l IH]; simpl.
  - split; [intros _; apply not_elem_of_nil|done].
  - destruct (String.eqb_spec y x) as [->|Hne].
    + split; [done|]. intros Hx. destruct Hx. apply list_elem_of_here.
    + destruct (list_remove x l) eqn:E.
      * split; [done|]. intros Hx. apply not_elem_of_cons in Hx as [_ Hx].
        apply IH in Hx. done.
      * split; [|done]. intros _. apply not_elem_of_cons. split; [done|].
        by apply IH.
Qed.

(** [remove] takes out one element, the first that is equal to [x]. *)
Lemma list_remove_Some x (l rest : list string) :
  list_remove x l = Some rest →
  ∃ before behind, l = before ++ x :: behind ∧ (x ∉ before) ∧ rest = before ++ behind.
Proof.
  revert rest. induction l as [|y l IH]; intros rest; simpl; [done|].
  destruct (String.eqb_spec y x) as [->|Hne].
  - intros [= <-]. exists [], l. split_and!; [done| |done]. apply not_elem_of_nil.
  - destruct (list_remove x l) as [r|] eqn:E; [|done].
    intros [= <-]. destruct (IH r eq_refl) as (before & behind & -> & Hx & ->).
    exists (y :: before), behind. split_and!; [done| |done].
    apply not_elem_of_cons. by split.
Qed.

End list_remove_facts.

Section project_facts.
Context `{BaseTool, Runtime}.
Import OpenDbtProject.
Local Arguments list_remove : simpl never.

(** Lines 177-184, in full.  The options go into the caller's list object
    when that is non-empty, else into a new one; the assembled list is a
    further new object, from which [remove] then takes the flag. *)
Lemma assemble_run_args_eq command target args write_json (s : St) :
  let h := arg_lists s.2 in
  let given := match args with Some l => h !!! l | None => [] end in
  let run_args :=
    match args with
    | Some l => if list_truthy given then l else fresh (dom h)
    | None => fresh (dom h)
    end in
  let current := given ++ Spec.run_options s.1 target in
  let h1 := <[run_args := current]> h in
  let assembled := [command] ++ current ++ (h1 !!! OpenDbtProject.args s.1) in
  let run_args' := fresh (dom h1) in
  assemble_run_args command target args write_json s =
    if write_json then
      match list_remove "--no-write-json" assembled with
      | Some rest =>
          (Return run_args', (s.1, set_arg_lists (λ _, <[run_args' := rest]> h1) s.2))
      | None =>
          (Raise (MkExc ValueError (Some "list.remove(x): x not in list") None),
           (s.1, set_arg_lists (λ _, <[run_args' := assembled]> h1) s.2))
      end
    else (Return run_args', (s.1, set_arg_lists (λ _, <[run_args' := assembled]> h1) s.2)).
Proof.
  destruct s as [[lgr pdir prof tgt stored c] [h cl lg ir di sc]]. cbv zeta.
  unfold assemble_run_args, Spec.run_options, args_truthy. simpl.
  assert (∀ l : loc, list_truthy (h !!! l) = false → h !!! l = []) as Hnil.
  { intros l. by destruct (h !!! l). }
  destruct args as [l|]; [destruct (list_truthy (h !!! l)) eqn:Hgiven|];
    destruct prof as [d|]; destruct write_json;
    py_unfold; unfold set_arg_lists; simpl; rewrite ?Hgiven; simpl;
    rewrite ?lookup_total_insert_eq, ?insert_insert_eq, ?(Hnil _ Hgiven), <- ?app_assoc;
    simpl; try done.
  all: destruct (list_remove _ _); simpl; rewrite ?insert_insert_eq; done.
Qed.

(** [invoke] leaves every list object but the one it is given alone. *)
Lemma invoke_other_lists args callbacks (s : OpenDbtCli.St) l :
  l ∈ dom (arg_lists s.2) → l ≠ args →
  arg_lists (OpenDbtCli.invoke args callbacks s).2.2 !! l = arg_lists s.2 !! l.
Proof.
  intros Hdom Hne.
  destruct (OpenDbtCli.invoke_run_callbacks callbacks s) as [[rc|e] s1] eqn:Hrc.
  - destruct (invoke_after_callbacks args _ _ _ _ Hrc) as (_ & _ & _ & _ & Hother & _).
    apply Hother. destruct (list_truthy _); [done|].
    intros ->. by apply is_fresh in Hdom.
  - destruct (invoke_callbacks_raise args _ _ _ _ Hrc) as [-> F]. simpl.
    by rewrite (frame_arg_lists _ _ F).
Qed.

(** Lines 186-197 leave every list object but the assembled one alone. *)
Lemma dispatch_other_lists run_args use_subprocess (s : St) l :
  l ∈ dom (arg_lists s.2) → l ≠ run_args →
  arg_lists (dispatch run_args use_subprocess s).2.2 !! l = arg_lists s.2 !! l.
Proof.
  intros Hdom Hne. destruct s as [self w]. unfold dispatch.
  destruct use_subprocess.
  - unfold log_info, on_world, modify, read_args, gets, call, bind, ret. simpl.
    by destruct (runcommand _).
  - unfold log_info, read_args, gets, bind, ret, on_cli. simpl.
    match goal with |- context [OpenDbtCli.invoke ?a ?c ?st] =>
      pose proof (invoke_other_lists a c st l) as Hinv;
      destruct (OpenDbtCli.invoke a c st) as [[res|e] s2] end;
      simpl in *; by apply Hinv.
Qed.

End project_facts.

Section in_place.
Context `{BaseTool, Runtime}.
Local Arguments list_remove : simpl never.


End in_place.

Section write_json.
Context `{BaseTool, Runtime}.
Import OpenDbtProject.

(** C9, as amended.  With [write_json=True]: when [--no-write-json] is
    nowhere among the command, the elements of [args], the options that
    [run] adds (target, project directory, profiles directory) and the
    stored arguments, the call raises the [ValueError] of [list.remove]
    before the base tool is invoked and before any subprocess is started;
    when it is among them, the list handed on is the assembled list without
    its first occurrence of the flag. *)
Theorem run_write_json_removes_flag (command : string) (target : option string)
    (args : option loc) (use_subprocess : bool) (s : St) :
  let h := arg_lists s.2 in
  let given := match args with Some l => h !!! l | None => [] end in
  let parts :=
    [command] ++ given ++ Spec.run_options s.1 target ++ (h !!! OpenDbtProject.args s.1) in
  let r := run command target args use_subprocess true s in
  let plain := assemble_run_args command target args false s in
  let removed := assemble_run_args command target args true s in
  ("--no-write-json" ∉ parts →
     r.1 = Raise (MkExc ValueError (Some "list.remove(x): x not in list") None) ∧
     dbt_invocations r.2.2 = dbt_invocations s.2 ∧
     subprocess_commands r.2.2 = subprocess_commands s.2) ∧
  ("--no-write-json" ∈ parts →
     ∃ before behind run_args,
       plain.1 = Return run_args ∧
       arg_lists plain.2.2 !!! run_args = before ++ "--no-write-json" :: behind ∧
       ("--no-write-json" ∉ before) ∧
       removed.1 = Return run_args ∧
       arg_lists removed.2.2 !!! run_args = before ++ behind).
Proof.
  cbv zeta.
  set (h := arg_lists s.2).
  set (given := match args with Some l => h !!! l | None => [] end).
  pose proof (assemble_run_args_eq command target args true s) as Htrue.
  pose proof (assemble_run_args_eq command target args false s) as Hfalse.
  cbv beta iota zeta in Htrue, Hfalse. fold h in Htrue, Hfalse. fold given in Htrue, Hfalse.
  set (run_args := match args with
                   | Some l => if list_truthy given then l else fresh (dom h)
                   | None => fresh (dom h)
                   end) in *.
  set (current := given ++ Spec.run_options s.1 target) in *.
  set (h1 := <[run_args := current]> h) in *.
  set (assembled := [command] ++ current ++ h1 !!! OpenDbtProject.args s.1) in *.
  assert ("--no-write-json" ∈ assembled ↔
          "--no-write-json" ∈ [command] ++ given ++ Spec.run_options s.1 target
                               ++ h !!! OpenDbtProject.args s.1) as Hparts.
  { subst assembled current h1.
    destruct (decide (OpenDbtProject.args s.1 = run_args)) as [Heq|Hne].
    - rewrite Heq, lookup_total_insert_eq.
      assert (h !!! run_args = given ∨ h !!! run_args = []) as [->| ->].
      { assert (h !!! fresh (dom h) = []) as Hfresh.
        { rewrite lookup_total_alt.
          by rewrite (not_elem_of_dom_1 h (fresh (dom h)) (is_fresh _)). }
        subst run_args given. destruct args as [l|]; [|by right].
        destruct (list_truthy (h !!! l)); [by left|by right]. }
      + set_solver.
      + set_solver.
    - rewrite lookup_total_insert_ne by done. by rewrite <- app_assoc. }
  split.
  - intros Habsent. rewrite <- Hparts in Habsent. apply list_remove_None in Habsent.
    rewrite Habsent in Htrue. unfold run, bind. rewrite Htrue. done.
  - intros Hpresent. apply Hparts in Hpresent.
    destruct (list_remove "--no-write-json" assembled) as [rest|] eqn:Hrm.
    + destruct (list_remove_Some _ _ _ Hrm) as (before & behind & Hasm & Hbefore & ->).
      exists before, behind, (fresh (dom h1)). rewrite Htrue, Hfalse. simpl.
      by rewrite !lookup_total_insert_eq.
    + apply list_remove_None in Hrm. done.
Qed.

End write_json.

(** The claim "[ValueError] whenever the flag is neither in [args] nor in
    the stored arguments" fails when the flag comes in as the command: it is
    then in the assembled list, [remove] finds it, and the call goes on to
    the base tool. *)
Lemma flag_given_as_command_is_removed :
  let s := (Examples.project None, Examples.world []) in
  ¬ (("--no-write-json" ∉ ([] : list string)) ∧
     ("--no-write-json" ∉ arg_lists s.2 !!! OpenDbtProject.args s.1) →
     raises ValueError
       (@OpenDbtProject.run (Examples.answering Examples.no_vars Examples.succeeded)
          Examples.runtime "--no-write-json" None None false true s).1).
Proof.
  intros s Hclaim.
  assert (("--no-write-json" ∉ ([] : list string)) ∧
          ("--no-write-json" ∉ arg_lists s.2 !!! OpenDbtProject.args s.1)) as Hpre.
  { split; [apply not_elem_of_nil|]. vm_compute. apply not_elem_of_nil. }
  specialize (Hclaim Hpre). vm_compute in Hclaim. done.
Qed.

(** ** The theorems with hypotheses, at concrete inputs *)



(** [run] with [write_json=True] and no flag anywhere. *)
Lemma run_write_json_removes_flag_witness :
  (@OpenDbtProject.run (Examples.answering Examples.no_vars Examples.succeeded)
     Examples.runtime "build" None None false true
     (Examples.project None, Examples.world [])).1
  = Raise (MkExc ValueError (Some "list.remove(x): x not in list") None).
Proof.
  refine (proj1 (proj1 (@run_write_json_removes_flag
                          (Examples.answering Examples.no_vars Examples.succeeded)
                          Examples.runtime "build" None None false
                          (Examples.project None, Examples.world [])) _)).
  vm_compute. intros Hin.
  repeat (apply elem_of_cons in Hin as [Hin|Hin]; [discriminate Hin|]).
  by apply elem_of_nil in Hin.
Defined.

(** * Further properties of the code *)

(** ** [OpenDbtLogger], across instances *)

Section logger_instances.
Import Logging OpenDbtLogger.

Lemma getLogger_registers name m : is_Some (loggerDict (getLogger name m).2 !! name).
Proof.
  unfold getLogger. destruct (loggerDict m !! name) eqn:E; simpl.
  - by rewrite E.
  - by rewrite lookup_insert_eq.
Qed.

(** After an initialising access the logger is registered and has a
    handler to write to. *)
Lemma log_establishes_handlers self m :
  _log self = None →
  is_Some (loggerDict (log self m).2 !! "opendbt") ∧
  hasHandlers "opendbt" (log self m).2 = true.
Proof.
  intros Hnone. unfold log. rewrite Hnone.
  pose proof (getLogger_registers "opendbt" m) as Hreg.
  destruct (getLogger "opendbt" m) as [logger m1] eqn:Hget.
  assert (logger = "opendbt") as ->.
  { unfold getLogger in Hget. destruct (loggerDict m !! "opendbt"); by inversion Hget. }
  simpl in Hreg. destruct (hasHandlers "opendbt" m1) eqn:Hh; simpl.
  - done.
  - split.
    + unfold addHandler. simpl. by rewrite lookup_insert_eq.
    + unfold hasHandlers. rewrite find_addHandler.
      by destruct (handlers (find "opendbt" m1)).
Qed.

(** X15. Instances share one logger.  When a second, new instance reads
    [log] after a first one has, it gets the same logger and the logging
    module is left exactly as the first access left it: the handler is not
    added a second time.  The first access touches no logger but
    [opendbt]. *)
Theorem second_instance_adds_no_handler (m : Manager) :
  let first := log new m in
  log new first.2 = ("opendbt", {| _log := Some "opendbt" |}, first.2) ∧
  ∀ name, name ≠ "opendbt" → loggerDict first.2 !! name = loggerDict m !! name.
Proof.
  cbv zeta. split.
  - destruct (log_establishes_handlers new m eq_refl) as [[lg Hreg] Hh].
    unfold log at 1. simpl _log. cbv iota.
    unfold getLogger. rewrite Hreg. by rewrite Hh.
  - intros name Hname. unfold log, new. simpl _log. cbv iota.
    unfold getLogger.
    destruct (loggerDict m !! "opendbt") eqn:E; simpl.
    + unfold hasHandlers. destruct (list_truthy _); simpl; [done|].
      destruct (propagate _); [destruct (list_truthy _)|]; simpl;
        by rewrite ?lookup_insert_ne.
    + unfold hasHandlers. destruct (list_truthy _); simpl.
      * by rewrite lookup_insert_ne.
      * destruct (propagate _); [destruct (list_truthy _)|]; simpl;
          by rewrite ?lookup_insert_ne.
Qed.

End logger_instances.

(** ** [dbtcommon.py], seen from the caller *)

Section dbtcommon_more.
Import DbtCommon.

Lemma contains_char_app c s t :
  contains_char c (s +:+ t) = contains_char c s || contains_char c t.
Proof.
  induction s as [|d s IH]; simpl; [done|].
  destruct (Ascii.eqb d c); [done|apply IH].
Qed.

(** Cutting at the last separator undoes joining a front and a back that
    has no separator, whatever the front holds. *)
Lemma rsplit_last_app c front back :
  contains_char c back = false →
  rsplit_last c (front +:+ String c back) = Some (front, back).
Proof.
  intros Hback. induction front as [|d front IH]; simpl.
  - apply rsplit_last_None in Hback. rewrite Hback. by rewrite Ascii.eqb_refl.
  - by rewrite IH.
Qed.


(** X17. Resolution undoes the dotted spelling: for a module that imports
    and an attribute it has, the name made of the module path, a dot and the
    attribute name resolves to that attribute, also when the module path
    itself contains dots. *)
Theorem dotted_name_resolves `{Importlib} (module_path attr : string)
    (m : Module_) (cls : PyObject) :
  contains_char "." attr = false →
  import_module module_path = Return m →
  m !! attr = Some cls →
  get_custom_adapter_class_by_name (module_path +:+ String "." attr) = Return cls.
Proof.
  intros Hattr Himport Hcls. unfold get_custom_adapter_class_by_name.
  rewrite contains_char_app. simpl. rewrite orb_true_r. simpl.
  unfold rsplit1. rewrite (rsplit_last_app _ _ _ Hattr), Himport.
  unfold getattr. by rewrite Hcls.
Qed.

End dbtcommon_more.

(** ** [OpenDbtCli]: the cached project and the project callbacks *)

Section cli_cache.
Context `{BaseTool, Runtime}.
Import OpenDbtCli.

Lemma project_fails (s : St) e : (project s).1 = Raise e → project s = (Raise e, s).
Proof.
  destruct s as [self w]. unfold project. py_unfold. simpl.
  destruct (_project self); [done|].
  destruct (from_project_root _ _); simpl; [done|]. by intros [= ->].
Qed.

Lemma project_vars_fails (s : St) e :
  (project s).1 = Raise e → project_vars s = (Raise e, s).
Proof.
  intros Hp. unfold project_vars, project_dict, bind. by rewrite (project_fails _ _ Hp).
Qed.

(** X2. The project is loaded at most once.  Once an access of [project]
    has returned, the project is cached: every later access returns the same
    project without asking the loader, whatever the loader would then do.
    An access whose load raises leaves the object as it was, so the next
    access loads again. *)
Theorem project_is_loaded_once (s : St) :
  match project s with
  | (Return p, s') =>
      _project s'.1 = Some p ∧
      ∀ loader : BaseTool, @project loader s' = (Return p, s')
  | (Raise e, s') => s' = s
  end.
Proof.
  destruct s as [self w]. unfold project. py_unfold. simpl.
  destruct (_project self) as [p|] eqn:Hp; simpl.
  - split; [done|]. intros loader. by rewrite Hp.
  - by destruct (from_project_root _ _).
Qed.


(** The loop only ever adds to the end of the list, and leaves [self]
    alone, whether it comes to its end or stops at a failing import. *)
Lemma resolve_loop_grows (names : list string) self w l :
  _project_callbacks self = Some l →
  ∃ o w' added,
    for_each names resolve_callback (self, w) = (o, (self, w')) ∧
    callback_lists w' !!! l = callback_lists w !!! l ++ added.
Proof.
  intros Hl. revert w. induction names as [|name names IH]; intros w.
  - exists (Return ()), w, []. by rewrite app_nil_r.
  - destruct (import_module_attribute_by_name name) as [cb|e] eqn:Hname.
    + destruct (IH (set_callback_lists (λ h, <[l := h !!! l ++ [cb]]> h) w))
        as (o & w' & added & Hloop & Hw').
      exists o, w', (cb :: added). split.
      * simpl. unfold bind at 1, resolve_callback, bind at 1, call. rewrite Hname.
        unfold bind at 1, the_project_callbacks, bind at 1, gets. simpl. rewrite Hl.
        unfold ret at 1, append_callback, on_world, modify. simpl. apply Hloop.
      * rewrite Hw'. simpl. by rewrite lookup_total_insert_eq, <- app_assoc.
    + exists (Raise e), w, []. split; [|by rewrite app_nil_r].
      simpl. unfold bind at 1, resolve_callback, bind at 1, call. by rewrite Hname.
Qed.

(** The loop over names of which one does not import: the callbacks of the
    names before it are in the list, no later name is tried. *)
Lemma resolve_loop_fails (resolved rest : list string) (bad : string)
    (cbs : list Callback) e self w l :
  _project_callbacks self = Some l →
  Forall2 (λ name cb, import_module_attribute_by_name name = Return cb) resolved cbs →
  import_module_attribute_by_name bad = Raise e →
  ∃ w', for_each (resolved ++ bad :: rest) resolve_callback (self, w)
          = (Raise e, (self, w')) ∧
        callback_lists w' !!! l = callback_lists w !!! l ++ cbs.
Proof.
  intros Hl Hall Hbad. revert w.
  induction Hall as [|name cb names cbs Hname _ IH]; intros w.
  - exists w. split; [|by rewrite app_nil_r].
    simpl. unfold bind at 1, resolve_callback, bind at 1, call. by rewrite Hbad.
  - destruct (IH (set_callback_lists (λ h, <[l := h !!! l ++ [cb]]> h) w))
      as (w' & Hloop & Hw').
    exists w'. split.
    + simpl. unfold bind at 1, resolve_callback, bind at 1, call. rewrite Hname.
      unfold bind at 1, the_project_callbacks, bind at 1, gets. simpl. rewrite Hl.
      unfold ret at 1, append_callback, on_world, modify. simpl. apply Hloop.
    + rewrite Hw'. simpl. by rewrite lookup_total_insert_eq, <- app_assoc.
Qed.

(** The first access, whatever comes of it: the attribute ends up bound to
    the user's list object, and that list has only grown. *)
Lemma first_access_binds (s : St) :
  _project_callbacks s.1 = None →
  let r := project_callbacks s in
  _project_callbacks r.2.1 = Some (_user_callbacks s.1) ∧
  ∃ added,
    callback_lists r.2.2 !!! _user_callbacks s.1 =
      callback_lists s.2 !!! _user_callbacks s.1 ++ added.
Proof.
  intros Hfirst. cbv zeta.
  destruct (project s) as [[p|e] sp] eqn:Hs.
  - assert ((project s).1 = Return p) as Hp by (by rewrite Hs).
    rewrite (project_callbacks_first_eq _ _ Hfirst Hp). cbv zeta.
    destruct (Spec.project_vars_of p !! "dbt_callbacks") as [names|].
    + set (s0 := loaded p (set__project_callbacks (Some (_user_callbacks s.1)) s.1, s.2)).
      destruct (resolve_loop_grows (split "," (py_str names)) s0.1 s0.2
                  (_user_callbacks s.1) eq_refl) as (o & w' & added & Hloop & Hw').
      unfold bind. replace s0 with (s0.1, s0.2) by done. rewrite Hloop.
      destruct o as [[]|e]; simpl; (split; [done|exists added; apply Hw']).
    + simpl. split; [done|]. exists []. by rewrite app_nil_r.
  - assert ((project s).1 = Raise e) as Hp by (by rewrite Hs).
    set (s0 := (set__project_callbacks (Some (_user_callbacks s.1)) s.1, s.2)).
    assert ((project s0).1 = Raise e) as Hp0.
    { subst s0. by rewrite project_set__project_callbacks. }
    assert (project_callbacks s = (Raise e, s0)) as ->.
    { unfold project_callbacks, bind at 1, gets at 1. rewrite Hfirst. simpl.
      unfold bind at 1 2, modify at 1. simpl. fold s0.
      unfold bind at 1. by rewrite (project_vars_fails _ _ Hp0). }
    simpl. split; [done|]. exists []. by rewrite app_nil_r.
Qed.

(** X4. A first access is never retried when the user supplied callbacks.
    With a non-empty user list, whatever the first access of
    [project_callbacks] did (returned, or raised because the project did not
    load or because a name did not import), every access after it returns
    the user's list object as the first access left it, and neither loads
    the project nor imports anything: a failure of the first access is not
    seen again. *)
Theorem project_callbacks_is_not_retried (s : St) :
  _project_callbacks s.1 = None →
  callback_lists s.2 !!! _user_callbacks s.1 ≠ [] →
  let s1 := (project_callbacks s).2 in
  ∀ (loader : BaseTool) (importer : Runtime),
    @project_callbacks loader importer s1 = (Return (Some (_user_callbacks s.1)), s1).
Proof.
  intros Hfirst Huser s1 loader importer.
  destruct (first_access_binds s Hfirst) as (Hbound & added & Hlist).
  fold s1 in Hbound, Hlist.
  destruct s1 as [self1 w1]. simpl in *.
  unfold project_callbacks, callbacks_truthy. py_unfold. simpl. rewrite Hbound, Hlist.
  destruct (callback_lists s.2 !!! _user_callbacks s.1); [done|].
  simpl. by rewrite Hbound.
Qed.

(** X5. When a name of [dbt_callbacks] does not import, the first access
    raises the import's exception, but the callbacks of the names before it
    have already been appended to the user's list object, to which the
    attribute is bound; the names after it are not imported. *)
Theorem project_callbacks_keeps_resolved_prefix (s : St) (p : PartialProject)
    (names : YamlValue) (resolved rest : list string) (bad : string)
    (cbs : list Callback) (e : Exc) :
  _project_callbacks s.1 = None →
  (project s).1 = Return p →
  Spec.project_vars_of p !! "dbt_callbacks" = Some names →
  split "," (py_str names) = resolved ++ bad :: rest →
  Forall2 (λ name cb, import_module_attribute_by_name name = Return cb) resolved cbs →
  import_module_attribute_by_name bad = Raise e →
  let r := project_callbacks s in
  r.1 = Raise e ∧
  _project_callbacks r.2.1 = Some (_user_callbacks s.1) ∧
  callback_lists r.2.2 !!! _user_callbacks s.1 =
    callback_lists s.2 !!! _user_callbacks s.1 ++ cbs.
Proof.
  intros Hfirst Hp Hnames Hsplit Hall Hbad. cbv zeta.
  rewrite (project_callbacks_first_eq _ _ Hfirst Hp). cbv zeta.
  rewrite Hnames, Hsplit.
  set (s0 := loaded p (set__project_callbacks (Some (_user_callbacks s.1)) s.1, s.2)).
  destruct (resolve_loop_fails resolved rest bad cbs e s0.1 s0.2 (_user_callbacks s.1)
              eq_refl Hall Hbad) as (w' & Hloop & Hw').
  unfold bind. replace s0 with (s0.1, s0.2) by done. rewrite Hloop. simpl.
  split_and!; [done..|]. apply Hw'.
Qed.

End cli_cache.

(** ** [OpenDbtCli.invoke]: callbacks and list objects *)

Section cli_lists.
Context `{BaseTool, Runtime}.
Import OpenDbtCli.

(** Line 91 once [project_callbacks] has returned a list: with callbacks
    given, a new list object holds the project's callbacks followed by the
    given ones; without, the project's list itself is passed on. *)
Lemma invoke_run_callbacks_eq (callbacks : option loc) (s s1 : St) (pl : loc) :
  project_callbacks s = (Return (Some pl), s1) →
  invoke_run_callbacks callbacks s =
    if callbacks_truthy callbacks s.2 then
      let both := fresh (dom (callback_lists s1.2)) in
      (Return (Some both),
       (s1.1, set_callback_lists
                <[both := callback_lists s1.2 !!! pl ++ Spec.callbacks_of callbacks s1.2]>
                s1.2))
    else (Return (Some pl), s1).
Proof.
  intros Hpc. unfold invoke_run_callbacks, bind at 1, gets at 1. simpl.
  destruct callbacks as [l|]; simpl; [|done].
  destruct (list_truthy (callback_lists s.2 !!! l)); [|done].
  unfold bind at 1. rewrite Hpc. by destruct s1.
Qed.

Lemma invoke_callback_lists args callbacks (s s1 : St) rc :
  invoke_run_callbacks callbacks s = (Return rc, s1) →
  callback_lists (invoke args callbacks s).2.2 = callback_lists s1.2.
Proof.
  intros Hrc. unfold invoke, bind. rewrite Hrc, invoke_run_args_heap. cbv zeta.
  by destruct (list_truthy _); rewrite run_eq.
Qed.

(** X6. The callbacks given to [invoke] are used for that call only.  Once
    [project_callbacks] has returned its list, the base tool is invoked
    with the project's callbacks followed by the given ones (by the
    project's alone when none, or an empty list, is given), and no callback
    list that existed is changed: the sum is a new list. *)
Theorem invoke_appends_given_callbacks (args : loc) (callbacks : option loc)
    (s s1 : St) (pl : loc) :
  project_callbacks s = (Return (Some pl), s1) →
  let own := callback_lists s1.2 !!! pl in
  let given :=
    if callbacks_truthy callbacks s.2 then Spec.callbacks_of callbacks s1.2 else [] in
  let r := invoke args callbacks s in
  dbt_invocations r.2.2 =
    dbt_invocations s.2
    ++ [(own ++ given,
         Spec.forwarded (project_dir s.1) (profiles_dir s.1) (arg_lists s.2 !!! args))] ∧
  ∀ l, l ∈ dom (callback_lists s1.2) → callback_lists r.2.2 !! l = callback_lists s1.2 !! l.
Proof.
  intros Hpc. cbv zeta.
  pose proof (invoke_run_callbacks_eq callbacks _ _ _ Hpc) as Hrc. cbv zeta in Hrc.
  destruct (callbacks_truthy callbacks s.2).
  - destruct (invoke_after_callbacks args _ _ _ _ Hrc) as (_ & _ & Hinv & _).
    rewrite Hinv, (invoke_callback_lists args _ _ _ _ Hrc). simpl.
    rewrite lookup_total_insert_eq. split; [done|].
    intros l Hl. apply lookup_insert_ne. intros <-. by apply is_fresh in Hl.
  - destruct (invoke_after_callbacks args _ _ _ _ Hrc) as (_ & _ & Hinv & _).
    rewrite Hinv, (invoke_callback_lists args _ _ _ _ Hrc). simpl.
    by rewrite app_nil_r.
Qed.

(** The forwarded list needs no further option. *)
Lemma forwarded_idempotent dir profiles (args : list string) :
  Spec.forwarded dir profiles (Spec.forwarded dir profiles args) =
  Spec.forwarded dir profiles args.
Proof.
  unfold Spec.forwarded.
  set (with_project := args ++ Spec.project_dir_option dir args).
  assert (str_in "--project-dir" with_project = true) as Hpd.
  { subst with_project. unfold Spec.project_dir_option. rewrite str_in_app.
    destruct (str_in "--project-dir" args) eqn:E; [done|].
    apply bool_decide_eq_true. set_solver. }
  set (all := with_project ++ Spec.profiles_dir_option profiles with_project).
  assert (Spec.project_dir_option dir all = []) as ->.
  { unfold Spec.project_dir_option. subst all. by rewrite str_in_app, Hpd. }
  rewrite app_nil_r.
  assert (Spec.profiles_dir_option profiles all = []) as ->; [|by rewrite app_nil_r].
  unfold Spec.profiles_dir_option. destruct profiles as [p|]; [|done].
  assert (str_in "--profiles-dir" all = true) as ->; [|done].
  subst all. unfold Spec.profiles_dir_option. rewrite str_in_app.
  destruct (str_in "--profiles-dir" with_project) eqn:E; [done|].
  apply bool_decide_eq_true. set_solver.
Qed.

Lemma forwarded_nonempty dir profiles (args : list string) :
  args ≠ [] → list_truthy (Spec.forwarded dir profiles args) = true.
Proof. intros Hargs. unfold Spec.forwarded. by destruct args. Qed.

(** X7. [invoke] adds its options to a list once.  When a non-empty list
    has been through [invoke] (line 91 having returned, so that the options
    were added), passing the same list object to [invoke] again, with
    whatever callbacks, leaves it as the first call left it, whether the
    second call returns or raises: the options are not appended a second
    time. *)
Theorem invoke_again_adds_nothing (args : loc) (first second : option loc) (s : St) :
  let s' := (invoke args first s).2 in
  arg_lists s.2 !!! args ≠ [] →
  returns (invoke_run_callbacks first s).1 →
  arg_lists (invoke args second s').2.2 !!! args = arg_lists s'.2 !!! args.
Proof.
  intros s' Hgiven Hfirst.
  destruct (invoke_run_callbacks first s) as [[rc|e] s1] eqn:E1; [|done].
  destruct (invoke_run_callbacks second s') as [[rc'|e] s1'] eqn:E2; last first.
  { destruct (invoke_callbacks_raise args _ _ _ _ E2) as [-> F]. simpl.
    by rewrite (frame_arg_lists _ _ F). }
  pose proof (keeps_invoke_run_callbacks first s) as F. rewrite E1 in F.
  destruct (invoke_after_callbacks args _ _ _ _ E1) as (_ & Hself & _ & Hargs & _).
  destruct (invoke_after_callbacks args _ _ _ _ E2) as (_ & _ & _ & Hargs' & _).
  fold s' in Hself, Hargs.
  assert (list_truthy (arg_lists s.2 !!! args) = true) as Ht
    by (by destruct (arg_lists s.2 !!! args)).
  rewrite Ht in Hargs.
  assert (project_dir s'.1 = project_dir s.1) as Hdir
    by (rewrite Hself; apply F).
  assert (profiles_dir s'.1 = profiles_dir s.1) as Hprof
    by (rewrite Hself; apply F).
  rewrite Hargs, Hdir, Hprof, forwarded_nonempty in Hargs' by done.
  rewrite Hargs', Hargs. apply forwarded_idempotent.
Qed.

(** X8. An empty list is not the one that is extended.  When the list given
    to [invoke] is empty, the options go to a new list object, and every
    list object that existed, the caller's empty list among them, is left
    as it was, whether the call returns or raises. *)
Theorem invoke_spares_an_empty_list (args : loc) (callbacks : option loc) (s : St) :
  arg_lists s.2 !!! args = [] →
  ∀ l, l ∈ dom (arg_lists s.2) →
       arg_lists (invoke args callbacks s).2.2 !! l = arg_lists s.2 !! l.
Proof.
  intros Hempty l Hl.
  destruct (invoke_run_callbacks callbacks s) as [[rc|e] s1] eqn:Hrc.
  - destruct (invoke_after_callbacks args _ _ _ _ Hrc) as (_ & _ & _ & _ & Hother & _).
    apply Hother. rewrite Hempty. simpl. intros ->. by apply is_fresh in Hl.
  - destruct (invoke_callbacks_raise args _ _ _ _ Hrc) as [-> F]. simpl.
    by rewrite (frame_arg_lists _ _ F).
Qed.

Lemma generate_docs_eq (args : option loc) (s : St) :
  let given := match args with Some l => arg_lists s.2 !!! l | None => [] end in
  let passed := if list_truthy given then "docs" :: "generate" :: given else [] in
  let _args := fresh (dom (arg_lists s.2)) in
  generate_docs args s =
    bind (invoke _args None) (λ _, ret tt) (s.1, set_arg_lists <[_args := passed]> s.2).
Proof.
  destruct s as [self w]. unfold generate_docs, args_truthy.
  unfold bind at 1, gets at 1. simpl.
  destruct args as [l|]; simpl; [|done].
  by destruct (list_truthy (arg_lists w !!! l)).
Qed.

(** X9. [manifest] and [generate_docs] work on a list of their own.  Neither
    changes any list object that existed before the call; in particular the
    list given to [generate_docs] does not get the options that [invoke]
    adds, since [["docs", "generate"] + args] is a new list. *)
Theorem manifest_and_generate_docs_change_no_list :
  (∀ (partial_parse no_write_manifest : bool) (s : St) (l : loc),
     l ∈ dom (arg_lists s.2) →
     arg_lists (manifest partial_parse no_write_manifest s).2.2 !! l = arg_lists s.2 !! l) ∧
  (∀ (args : option loc) (s : St) (l : loc),
     l ∈ dom (arg_lists s.2) →
     arg_lists (generate_docs args s).2.2 !! l = arg_lists s.2 !! l).
Proof.
  assert (∀ (s : St) (v : list string) (l : loc),
            l ∈ dom (arg_lists s.2) →
            let own := fresh (dom (arg_lists s.2)) in
            arg_lists (invoke own None (s.1, set_arg_lists <[own := v]> s.2)).2.2 !! l
            = arg_lists s.2 !! l) as Hown.
  { intros s v l Hl own.
    assert (l ≠ own) as Hne by (intros ->; by apply is_fresh in Hl).
    rewrite invoke_other_lists; simpl; [by rewrite lookup_insert_ne| |done].
    rewrite dom_insert_L. set_solver. }
  split.
  - intros pp nw s l Hl. rewrite manifest_eq. cbv zeta.
    specialize (Hown s (Spec.parse_args pp nw) l Hl). cbv zeta in Hown.
    unfold bind. destruct (invoke _ None _) as [[res|e] s2]; simpl in *; [|done].
    by destruct (result res).
  - intros args s l Hl. rewrite generate_docs_eq. cbv zeta.
    match goal with |- context [set_arg_lists <[_ := ?v]> _] =>
      specialize (Hown s v l Hl) end.
    cbv zeta in Hown. unfold bind.
    by destruct (invoke _ None _) as [[res|e] s2].
Qed.

End cli_lists.

(** ** [OpenDbtProject.run]: what is assembled and where it goes *)

Section project_run.
Context `{BaseTool, Runtime}.
Import OpenDbtProject.
Local Arguments list_remove : simpl never.

(** Lines 177-184 seen from outside: the arguments handed on sit in a list
    object that did not exist before, and nothing but list objects has
    changed. *)
Lemma assemble_run_args_outcome command target args write_json (s : St) :
  let a := assemble_run_args command target args write_json s in
  a.2.1 = s.1 ∧
  callback_lists a.2.2 = callback_lists s.2 ∧ logging a.2.2 = logging s.2 ∧
  info_records a.2.2 = info_records s.2 ∧
  dbt_invocations a.2.2 = dbt_invocations s.2 ∧
  subprocess_commands a.2.2 = subprocess_commands s.2 ∧
  match handed_on write_json (assembled_args command target args s) with
  | Some argv => ∃ run_args, a.1 = Return run_args ∧ arg_lists a.2.2 !!! run_args = argv
  | None => a.1 = Raise (MkExc ValueError (Some "list.remove(x): x not in list") None)
  end.
Proof.
  cbv zeta. rewrite assemble_run_args_eq. cbv zeta.
  unfold handed_on, assembled_args. cbv zeta.
  destruct write_json.
  - destruct (list_remove _ _) as [rest|]; simpl; split_and!; try done.
    eexists. split; [done|]. by rewrite lookup_total_insert_eq.
  - simpl. split_and!; try done.
    eexists. split; [done|]. by rewrite lookup_total_insert_eq.
Qed.

(** The subprocess branch of lines 186-194. *)
Lemma dispatch_subprocess_eq (run_args : loc) (s : St) :
  let argv := arg_lists s.2 !!! run_args in
  let cmd := [str_or sys_executable "python"; "-m"; "opendbt"] ++ argv in
  let r := dispatch run_args true s in
  r.1 = match runcommand cmd with
        | Return _ => Return None
        | Raise e => Raise e
        end ∧
  subprocess_commands r.2.2 = subprocess_commands s.2 ++ [cmd] ∧
  dbt_invocations r.2.2 = dbt_invocations s.2.
Proof.
  destruct s as [self w]. cbv zeta. unfold dispatch.
  unfold log_info, on_world, modify, read_args, gets, call, bind, ret. simpl.
  by destruct (runcommand _) as [[]|e].
Qed.

(** X12. With [use_subprocess], [run] starts one subprocess and never
    invokes the base tool itself.  The command line is the interpreter
    ([python] when [sys.executable] is empty or [None]), [-m], [opendbt]
    and the arguments handed on; [run] returns [None] when the subprocess
    helper returns and raises what it raises.  When [remove] raises, no
    subprocess is started. *)
Theorem run_in_subprocess (command : string) (target : option string)
    (args : option loc) (write_json : bool) (s : St) :
  let r := run command target args true write_json s in
  dbt_invocations r.2.2 = dbt_invocations s.2 ∧
  match handed_on write_json (assembled_args command target args s) with
  | Some argv =>
      let cmd := [str_or sys_executable "python"; "-m"; "opendbt"] ++ argv in
      subprocess_commands r.2.2 = subprocess_commands s.2 ++ [cmd] ∧
      r.1 = match runcommand cmd with
            | Return _ => Return None
            | Raise e => Raise e
            end
  | None =>
      subprocess_commands r.2.2 = subprocess_commands s.2 ∧
      r.1 = Raise (MkExc ValueError (Some "list.remove(x): x not in list") None)
  end.
Proof.
  cbv zeta. unfold run, bind.
  destruct (assemble_run_args_outcome command target args write_json s)
    as (_ & _ & _ & _ & Hinv & Hsub & Hout).
  destruct (handed_on write_json _) as [argv|].
  - destruct Hout as (run_args & Ha & Hargv).
    destruct (assemble_run_args command target args write_json s) as [o s1].
    simpl in Ha, Hargv, Hinv, Hsub. subst o. cbv beta iota zeta.
    destruct (dispatch_subprocess_eq run_args s1) as (Hr & Hs & Hi).
    rewrite Hargv in Hr, Hs. rewrite Hi, Hs, Hr, Hinv, Hsub. done.
  - destruct (assemble_run_args command target args write_json s) as [o s1].
    simpl in Hout, Hinv, Hsub. subst o. done.
Qed.

End project_run.

Section project_in_process.
Context `{BaseTool, Runtime}.
Import OpenDbtProject.
Local Arguments list_remove : simpl never.

(** A list that has both options gets none from [invoke]. *)
Lemma forwarded_complete dir profiles (argv : list string) :
  "--project-dir" ∈ argv →
  (is_Some profiles → "--profiles-dir" ∈ argv) →
  Spec.forwarded dir profiles argv = argv.
Proof.
  intros Hpd Hpf. unfold Spec.forwarded, Spec.project_dir_option, str_in.
  rewrite bool_decide_eq_true_2 by done. rewrite !app_nil_r.
  unfold Spec.profiles_dir_option, str_in. destruct profiles as [p|]; [|by rewrite app_nil_r].
  rewrite bool_decide_eq_true_2 by (by apply Hpf). by rewrite app_nil_r.
Qed.

(** The options of [run] are in what it hands on: [remove] only takes out
    [--no-write-json]. *)
Lemma handed_on_has_options command target args write_json (s : St) argv :
  handed_on write_json (assembled_args command target args s) = Some argv →
  "--project-dir" ∈ argv ∧ (is_Some (profiles_dir s.1) → "--profiles-dir" ∈ argv).
Proof.
  intros Hargv.
  assert ("--project-dir" ∈ assembled_args command target args s ∧
          (is_Some (profiles_dir s.1) →
           "--profiles-dir" ∈ assembled_args command target args s)) as [Hpd Hpf].
  { unfold assembled_args, Spec.run_options. cbv zeta. split.
    - set_solver.
    - intros [p Hp]. rewrite Hp. set_solver. }
  unfold handed_on in Hargv. destruct write_json.
  - destruct (list_remove_Some _ _ _ Hargv) as (before & behind & Heq & _ & ->).
    rewrite Heq in Hpd, Hpf. split.
    + apply elem_of_app in Hpd as [?|Hpd]; [set_solver|].
      apply elem_of_cons in Hpd as [?|?]; [done|set_solver].
    + intros Hsome. specialize (Hpf Hsome).
      apply elem_of_app in Hpf as [?|Hpf]; [set_solver|].
      apply elem_of_cons in Hpf as [?|?]; [done|set_solver].
  - by inversion Hargv; subst.
Qed.

(** The in-process branch of lines 196-197: [invoke] either raises before
    the base tool is reached, or invokes it once. *)
Lemma dispatch_in_process (run_args : loc) (s : St) :
  let argv := arg_lists s.2 !!! run_args in
  let forwarded :=
    Spec.forwarded (OpenDbtCli.project_dir (cli s.1)) (OpenDbtCli.profiles_dir (cli s.1))
      argv in
  let r := dispatch run_args false s in
  subprocess_commands r.2.2 = subprocess_commands s.2 ∧
  ((∃ e, r.1 = Raise e ∧ dbt_invocations r.2.2 = dbt_invocations s.2) ∨
   (∃ cbs, dbt_invocations r.2.2 = dbt_invocations s.2 ++ [(cbs, forwarded)] ∧
           r.1 = match Spec.run_outcome (DbtCliRunner_invoke cbs forwarded) with
                 | Return res => Return (Some res)
                 | Raise e => Raise e
                 end)).
Proof.
  destruct s as [self w]. cbv zeta. unfold dispatch.
  unfold log_info, read_args, gets, bind, ret, on_cli. simpl.
  match goal with |- context [OpenDbtCli.invoke ?a ?c ?st] => set (st0 := st) end.
  destruct (OpenDbtCli.invoke_run_callbacks None st0) as [[rc|e] s1] eqn:Hrc.
  - destruct (invoke_after_callbacks run_args _ _ _ _ Hrc)
      as (Hout & _ & Hinv & _ & _ & _ & Hsub & _).
    simpl in Hout, Hinv, Hsub.
    destruct (OpenDbtCli.invoke run_args None st0) as [o s2]. simpl in *.
    split; [by destruct o|]. right.
    exists (Spec.callbacks_of rc s1.2). subst o.
    split; [by destruct (Spec.run_outcome _)|by destruct (Spec.run_outcome _)].
  - destruct (invoke_callbacks_raise run_args _ _ _ _ Hrc) as [Hinv F].
    rewrite Hinv. simpl. split; [apply F|]. left. exists e. split; [done|apply F].
Qed.

(** X13. In process, [run] and [invoke] compose without a second round of
    options.  For an object whose [cli] has the same profiles directory (as
    the constructor sets it up), [run] without [use_subprocess] starts no
    subprocess, and either raises without the base tool having been
    invoked, or invokes it exactly once, with exactly the arguments handed
    on by lines 177-184, and returns or raises as [OpenDbtCli.run] does on
    its answer. *)
Theorem run_in_process_adds_no_option (command : string) (target : option string)
    (args : option loc) (write_json : bool) (s : St) :
  OpenDbtCli.profiles_dir (cli s.1) = profiles_dir s.1 →
  let r := run command target args false write_json s in
  subprocess_commands r.2.2 = subprocess_commands s.2 ∧
  match handed_on write_json (assembled_args command target args s) with
  | Some argv =>
      (∃ e, r.1 = Raise e ∧ dbt_invocations r.2.2 = dbt_invocations s.2) ∨
      (∃ cbs, dbt_invocations r.2.2 = dbt_invocations s.2 ++ [(cbs, argv)] ∧
              r.1 = match Spec.run_outcome (DbtCliRunner_invoke cbs argv) with
                    | Return res => Return (Some res)
                    | Raise e => Raise e
                    end)
  | None =>
      r.1 = Raise (MkExc ValueError (Some "list.remove(x): x not in list") None) ∧
      dbt_invocations r.2.2 = dbt_invocations s.2
  end.
Proof.
  intros Hprofiles. cbv zeta. unfold run, bind.
  destruct (assemble_run_args_outcome command target args write_json s)
    as (Hself & _ & _ & _ & Hinv & Hsub & Hout).
  pose proof (handed_on_has_options command target args write_json s) as Hopts.
  destruct (handed_on write_json _) as [argv|].
  - destruct (Hopts argv eq_refl) as [Hpd Hpf]. destruct Hout as (run_args & Ha & Hargv).
    destruct (assemble_run_args command target args write_json s) as [o s1].
    simpl in Ha, Hargv, Hinv, Hsub, Hself. subst o. cbv beta iota zeta.
    destruct (dispatch_in_process run_args s1) as (Hs & Hcases).
    rewrite Hargv, Hself, Hprofiles, (forwarded_complete _ _ _ Hpd Hpf) in Hcases.
    rewrite Hs, Hsub, Hinv in *. done.
  - destruct (assemble_run_args command target args write_json s) as [o s1].
    simpl in Hout, Hinv, Hsub. subst o. done.
Qed.

(** What [run] leaves of the caller's non-empty list: its old elements and
    the options after them. *)
Lemma run_extends_args command target (args : loc) use_subprocess write_json (s : St) :
  arg_lists s.2 !!! args ≠ [] →
  arg_lists (run command target (Some args) use_subprocess write_json s).2.2 !!! args
  = arg_lists s.2 !!! args ++ Spec.run_options s.1 target.
Proof.
  intros Hgiven. set (given := arg_lists s.2 !!! args) in *.
  unfold run, bind.
  pose proof (assemble_run_args_eq command target (Some args) write_json s) as Hasm.
  cbv beta iota zeta in Hasm. fold given in Hasm.
  assert (list_truthy given = true) as Ht by (by destruct given).
  rewrite Ht in Hasm.
  set (current := given ++ Spec.run_options s.1 target) in *.
  set (h1 := <[args := current]> (arg_lists s.2)) in *.
  set (run_args' := fresh (dom h1)) in *.
  assert (args ∈ dom h1) as Hdom.
  { subst h1. rewrite dom_insert_L. set_solver. }
  assert (args ≠ run_args') as Hne.
  { intros Heq. rewrite Heq in Hdom. by apply is_fresh in Hdom. }
  assert (∀ v : list string, (<[run_args' := v]> h1) !!! args = current) as Hlook.
  { intros v. rewrite lookup_total_insert_ne by done. subst h1.
    by rewrite lookup_total_insert_eq. }
  assert (∀ (v : list string) (s1 : St) (b : bool),
            arg_lists s1.2 = <[run_args' := v]> h1 →
            arg_lists (dispatch run_args' b s1).2.2 !!! args = current) as Hdisp.
  { intros v s1 b Hs1.
    rewrite lookup_total_alt, dispatch_other_lists, <- lookup_total_alt; [| |done].
    - rewrite Hs1. apply Hlook.
    - rewrite Hs1, dom_insert_L. set_solver. }
  rewrite Hasm. destruct write_json.
  - destruct (list_remove _ _) as [rest|]; simpl.
    + by apply (Hdisp rest).
    + apply Hlook.
  - by eapply Hdisp.
Qed.

(** [run] changes [self] in its logger state and its [cli] only. *)
Lemma run_keeps_attributes command target args use_subprocess write_json (s : St) :
  let r := run command target args use_subprocess write_json s in
  project_dir r.2.1 = project_dir s.1 ∧ profiles_dir r.2.1 = profiles_dir s.1 ∧
  OpenDbtProject.target r.2.1 = OpenDbtProject.target s.1 ∧
  OpenDbtProject.args r.2.1 = OpenDbtProject.args s.1.
Proof.
  cbv zeta. unfold run, bind.
  destruct (assemble_run_args_outcome command target args write_json s) as (Hself & _).
  destruct (assemble_run_args command target args write_json s) as [[run_args|e] s1];
    simpl in Hself; rewrite <- Hself; cbv beta iota zeta; [|done].
  destruct s1 as [self1 w1]. unfold dispatch.
  destruct use_subprocess.
  - unfold log_info, on_world, modify, read_args, gets, call, bind, ret. simpl.
    by destruct (runcommand _).
  - unfold log_info, read_args, gets, bind, ret, on_cli. simpl.
    by destruct (OpenDbtCli.invoke _ _ _) as [[res|e] s2].
Qed.

(** X10. [OpenDbtProject.run] adds its options on every call.  When one
    non-empty list object is passed to two calls in a row, it ends up
    holding its first elements, then the options of the first call, then
    the options of the second: the options pile up in the caller's list. *)
Theorem run_twice_adds_options_twice (c1 c2 : string) (t1 t2 : option string)
    (args : loc) (u1 u2 w1 w2 : bool) (s : St) :
  arg_lists s.2 !!! args ≠ [] →
  let s' := (run c1 t1 (Some args) u1 w1 s).2 in
  arg_lists (run c2 t2 (Some args) u2 w2 s').2.2 !!! args =
    arg_lists s.2 !!! args ++ Spec.run_options s.1 t1 ++ Spec.run_options s.1 t2.
Proof.
  intros Hgiven s'.
  pose proof (run_extends_args c1 t1 args u1 w1 s Hgiven) as Hfirst. fold s' in Hfirst.
  destruct (run_keeps_attributes c1 t1 (Some args) u1 w1 s) as (Hd & Hp & Ht & _).
  fold s' in Hd, Hp, Ht.
  rewrite run_extends_args, Hfirst.
  - rewrite <- app_assoc. do 2 f_equal. unfold Spec.run_options. by rewrite Hd, Hp, Ht.
  - rewrite Hfirst. by destruct (arg_lists s.2 !!! args).
Qed.

(** X11. The stored arguments are read when [run] assembles its list, after
    the options have gone into the list that was passed.  So when the list
    passed to [run] is the very object stored at construction, the command
    line holds that list twice, each time with the options; with two
    different list objects it holds the stored elements once, as they
    are. *)
Theorem run_reads_stored_args_late (command : string) (target : option string)
    (args : loc) (s : St) :
  arg_lists s.2 !!! args ≠ [] →
  let given := arg_lists s.2 !!! args in
  let stored := arg_lists s.2 !!! OpenDbtProject.args s.1 in
  let program := [OpenDbtProject.str_or sys_executable "python"; "-m"; "opendbt"] in
  let options := Spec.run_options s.1 target in
  subprocess_commands (run command target (Some args) true false s).2.2 =
    subprocess_commands s.2
    ++ [program ++ [command] ++ (given ++ options)
                ++ (if decide (OpenDbtProject.args s.1 = args)
                    then given ++ options else stored)].
Proof.
  intros Hgiven. cbv zeta. unfold run, bind.
  destruct (assemble_run_args_outcome command target (Some args) false s)
    as (_ & _ & _ & _ & _ & Hsub & Hout).
  unfold handed_on, assembled_args in Hout. cbv beta iota zeta in Hout.
  assert (list_truthy (arg_lists s.2 !!! args) = true) as Ht
    by (by destruct (arg_lists s.2 !!! args)).
  rewrite Ht in Hout. destruct Hout as (run_args & Ha & Hargv).
  destruct (assemble_run_args command target (Some args) false s) as [o s1].
  simpl in Ha, Hargv, Hsub. subst o. cbv beta iota zeta.
  destruct (dispatch_subprocess_eq run_args s1) as (_ & Hs & _).
  rewrite Hs, Hargv, Hsub. do 4 f_equal.
  destruct (decide (OpenDbtProject.args s.1 = args)) as [->|Hne].
  - by rewrite lookup_total_insert_eq.
  - by rewrite lookup_total_insert_ne.
Qed.

End project_in_process.

(** ** [OpenDbtProject.run]: the logger *)

Section project_logging.
Context `{BaseTool, Runtime}.
Import OpenDbtProject.

(** Reading [log] again changes nothing. *)
Lemma log_again self m :
  let r := OpenDbtLogger.log self m in
  OpenDbtLogger.log r.1.2 r.2 = r.
Proof.
  cbv zeta. unfold OpenDbtLogger.log.
  destruct (OpenDbtLogger._log self) as [lg|] eqn:E; simpl; [by rewrite E|].
  destruct (Logging.getLogger "opendbt" m) as [lg m1].
  by destruct (Logging.hasHandlers lg m1).
Qed.

(** The messages of lines 188-192 and of line 196. *)
Lemma dispatch_messages (run_args : loc) (use_subprocess : bool) (s : St) :
  let argv := arg_lists s.2 !!! run_args in
  let first := OpenDbtLogger.log (logger s.1) (logging s.2) in
  let py_executable := str_or sys_executable "python" in
  let messages :=
    if use_subprocess then
      ["Working dir: " +:+ os_getcwd;
       "Python executable: " +:+ py_executable;
       "Running command (shell=False) `"
         +:+ join " " ([py_executable; "-m"; "opendbt"] ++ argv) +:+ "`"]
    else ["Running `dbt " +:+ join " " argv +:+ "`"] in
  let r := dispatch run_args use_subprocess s in
  info_records r.2.2 = info_records s.2 ++ map (pair first.1.1) messages ∧
  logger r.2.1 = first.1.2 ∧
  logging r.2.2 = first.2.
Proof.
  destruct s as [self w]. cbv zeta. unfold dispatch. destruct use_subprocess.
  - unfold log_info, on_world, modify, read_args, gets, call, bind, ret. simpl.
    rewrite !log_again. destruct (runcommand _) as [[]|e]; simpl;
      by rewrite <- !app_assoc.
  - unfold log_info, read_args, gets, bind, ret, on_cli. simpl.
    match goal with |- context [OpenDbtCli.invoke ?a ?c ?st] => set (st0 := st) end.
    destruct (OpenDbtCli.invoke_run_callbacks None st0) as [[rc|e] s1] eqn:Hrc.
    + destruct (invoke_after_callbacks run_args _ _ _ _ Hrc)
        as (_ & _ & _ & _ & _ & _ & _ & Hlog & Hinfo).
      simpl in Hlog, Hinfo.
      destruct (OpenDbtCli.invoke run_args None st0) as [o s2]. simpl in *.
      by destruct o.
    + destruct (invoke_callbacks_raise run_args _ _ _ _ Hrc) as [Hinv F].
      rewrite Hinv. simpl. split_and!; [apply F|done|apply F].
Qed.

(** X19. [run] reads [self.log] only once its arguments are assembled, and
    hands its messages to that logger before it acts.  When line 184 raises,
    [info] has not been called and the logger has not been looked up.
    Otherwise the instance's logger is the one its [log] property gives (set
    up on this call when it had not been read before), and [info] has been
    called on it with the working directory, the interpreter and the command
    line when a subprocess is used, and with the [dbt] command line
    otherwise, also when the call that follows raises; nothing else touches
    the logging module. *)
Theorem run_hands_messages_to_the_logger (command : string) (target : option string)
    (args : option loc) (use_subprocess write_json : bool) (s : St) :
  let first := OpenDbtLogger.log (logger s.1) (logging s.2) in
  let py_executable := str_or sys_executable "python" in
  let r := run command target args use_subprocess write_json s in
  match handed_on write_json (assembled_args command target args s) with
  | Some argv =>
      let messages :=
        if use_subprocess then
          ["Working dir: " +:+ os_getcwd;
           "Python executable: " +:+ py_executable;
           "Running command (shell=False) `"
             +:+ join " " ([py_executable; "-m"; "opendbt"] ++ argv) +:+ "`"]
        else ["Running `dbt " +:+ join " " argv +:+ "`"] in
      info_records r.2.2 = info_records s.2 ++ map (pair first.1.1) messages ∧
      logger r.2.1 = first.1.2 ∧
      logging r.2.2 = first.2
  | None =>
      info_records r.2.2 = info_records s.2 ∧
      logger r.2.1 = logger s.1 ∧
      logging r.2.2 = logging s.2
  end.
Proof.
  cbv zeta. unfold run, bind.
  destruct (assemble_run_args_outcome command target args write_json s)
    as (Hself & _ & Hlog & Hinfo & _ & _ & Hout).
  destruct (handed_on write_json _) as [argv|].
  - destruct Hout as (run_args & Ha & Hargv).
    destruct (assemble_run_args command target args write_json s) as [o s1].
    simpl in Ha, Hargv, Hself, Hlog, Hinfo. subst o. cbv beta iota zeta.
    destruct (dispatch_messages run_args use_subprocess s1) as (Hi & Hl & Hm).
    rewrite Hargv, Hself, Hlog, Hinfo in Hi. rewrite Hself, Hlog in Hl, Hm.
    done.
  - destruct (assemble_run_args command target args write_json s) as [o s1].
    simpl in Hout, Hself, Hlog, Hinfo. subst o. simpl.
    by rewrite Hself, Hlog, Hinfo.
Qed.

End project_logging.

(** ** The constructors *)

Section construction.
Context `{BaseTool, Runtime}.

(** X14. [OpenDbtProject.__init__] raises exactly when the project
    directory has no nearest project.  Otherwise the new object keeps the
    directories it was given and hands the same profiles directory to its
    [cli], whose project directory is the nearest one; its target is the
    given one, or ['dev'] for [None] or an empty string; a non-empty [args]
    list is stored as the caller's own object, while for [None] or an empty
    list a new, empty list object is stored; no list object that existed is
    changed. *)
Theorem project_construction (project_dir : string) (target profiles : option string)
    (args : option loc) (w : World) :
  let r := OpenDbtProject.__init__ project_dir target profiles args ((), w) in
  match get_nearest_project_dir project_dir with
  | Raise e => r.1 = Raise e
  | Return nearest =>
      ∃ self,
        r.1 = Return self ∧
        OpenDbtProject.project_dir self = project_dir ∧
        OpenDbtProject.profiles_dir self = profiles ∧
        OpenDbtCli.profiles_dir (OpenDbtProject.cli self) = profiles ∧
        OpenDbtCli.project_dir (OpenDbtProject.cli self) = nearest ∧
        OpenDbtProject.target self = OpenDbtProject.str_or target "dev" ∧
        (if args_truthy args w then args = Some (OpenDbtProject.args self)
         else (OpenDbtProject.args self ∉ dom (arg_lists w)) ∧
              arg_lists r.2.2 !!! OpenDbtProject.args self = []) ∧
        ∀ l, l ∈ dom (arg_lists w) → arg_lists r.2.2 !! l = arg_lists w !! l
  end.
Proof.
  cbv zeta. unfold OpenDbtProject.__init__, OpenDbtCli.__init__, args_truthy.
  assert (∀ l : loc, l ∈ dom (arg_lists w) →
            <[fresh (dom (arg_lists w)) := []]> (arg_lists w) !! l = arg_lists w !! l)
    as Hother.
  { intros l Hl. apply lookup_insert_ne. intros <-. by apply is_fresh in Hl. }
  destruct (get_nearest_project_dir project_dir) as [nearest|e] eqn:Hdir.
  - destruct args as [l|]; [destruct (list_truthy (arg_lists w !!! l)) eqn:Hl|];
      py_unfold; simpl; rewrite ?Hl, ?Hdir; simpl;
      eexists; repeat split; simpl; try done;
      try apply is_fresh; by rewrite ?lookup_total_insert_eq.
  - destruct args as [l|]; [destruct (list_truthy (arg_lists w !!! l)) eqn:Hl|];
      py_unfold; simpl; rewrite ?Hl, ?Hdir; done.
Qed.

(** X18. The callback list given at construction is the one the project's
    callbacks are appended to.  For an [OpenDbtCli] built with a non-empty
    [callbacks] list, once the first access of [project_callbacks] has
    resolved the names of [dbt_callbacks], the caller's own list object
    holds its old elements followed by the resolved callbacks. *)
Theorem callbacks_given_at_construction_are_extended (project_dir : string)
    (profiles : option string) (callbacks : loc) (w : World) (nearest : string)
    (p : PartialProject) (names : YamlValue) (cbs : list Callback) :
  get_nearest_project_dir project_dir = Return nearest →
  callback_lists w !!! callbacks ≠ [] →
  from_project_root nearest true = Return p →
  Spec.project_vars_of p !! "dbt_callbacks" = Some names →
  Forall2 (λ name cb, import_module_attribute_by_name name = Return cb)
    (split "," (py_str names)) cbs →
  ∃ self,
    OpenDbtCli.__init__ project_dir profiles (Some callbacks) ((), w) = (Return self, ((), w)) ∧
    callback_lists (OpenDbtCli.project_callbacks (self, w)).2.2 !!! callbacks =
      callback_lists w !!! callbacks ++ cbs.
Proof.
  intros Hdir Hgiven Hload Hnames Hall.
  eexists. split; [by apply init_keeps_user_callbacks|].
  match goal with |- context [OpenDbtCli.project_callbacks ?st] => set (s := st) end.
  assert ((OpenDbtCli.project s).1 = Return p) as Hp.
  { subst s. unfold OpenDbtCli.project. py_unfold. simpl. by rewrite Hload. }
  rewrite (project_callbacks_first_eq s p eq_refl Hp). cbv zeta. rewrite Hnames.
  set (s0 := loaded p (OpenDbtCli.set__project_callbacks
                         (Some (OpenDbtCli._user_callbacks s.1)) s.1, s.2)).
  destruct (resolve_loop _ _ s0.1 s0.2 callbacks eq_refl Hall) as (w' & Hloop & Hw').
  unfold bind. replace s0 with (s0.1, s0.2) by done. rewrite Hloop. simpl.
  apply Hw'.
Qed.

End construction.

(** ** The further properties with hypotheses, at concrete inputs *)

Section further_witnesses.

Import Scenarios.

(** The project does not load, the user gave one callback: the second
    access returns the user's list. *)
Lemma project_callbacks_is_not_retried_witness :
  @OpenDbtCli.project_callbacks Scenarios.unloadable Examples.runtime
    (@OpenDbtCli.project_callbacks Scenarios.unloadable Examples.runtime cli_state).2
  = (Return (Some 0),
     (@OpenDbtCli.project_callbacks Scenarios.unloadable Examples.runtime cli_state).2).
Proof.
  refine (@project_callbacks_is_not_retried Scenarios.unloadable Examples.runtime
            cli_state _ _ Scenarios.unloadable Examples.runtime).
  - reflexivity.
  - vm_compute. discriminate.
Defined.

(** [pkg.First] imports and [pkg.Second] does not: the access raises, and
    the first callback is in the user's list. *)
Lemma project_callbacks_keeps_resolved_prefix_witness :
  (@OpenDbtCli.project_callbacks tool Scenarios.only_first cli_state).1
    = Raise (MkExc ModuleNotFoundError (Some "pkg.Second") None) ∧
  OpenDbtCli._project_callbacks
    (@OpenDbtCli.project_callbacks tool Scenarios.only_first cli_state).2.1 = Some 0 ∧
  callback_lists (@OpenDbtCli.project_callbacks tool Scenarios.only_first cli_state).2.2 !!! 0
    = [ObjRef 7] ++ [ObjRef 1].
Proof.
  refine (@project_callbacks_keeps_resolved_prefix tool Scenarios.only_first cli_state
            Examples.with_callbacks (YStr "pkg.First,pkg.Second")
            ["pkg.First"] [] "pkg.Second" [ObjRef 1] _ _ _ _ _ _ _).
  - reflexivity.
  - reflexivity.
  - vm_compute. reflexivity.
  - vm_compute. reflexivity.
  - repeat constructor.
  - reflexivity.
Defined.

(** The caller's one callback is also given to [invoke]: the base tool gets
    the project's three callbacks and then the given list as it is then. *)
Lemma invoke_appends_given_callbacks_witness :
  dbt_invocations (@OpenDbtCli.invoke tool Examples.runtime 0 (Some 0) cli_state).2.2
  = [([ObjRef 7; ObjRef 9; ObjRef 10] ++ [ObjRef 7; ObjRef 9; ObjRef 10],
      ["run"; "--project-dir"; "/proj"; "--profiles-dir"; "/profiles"])].
Proof.
  refine (proj1 (@invoke_appends_given_callbacks tool Examples.runtime 0 (Some 0) cli_state
                   (@OpenDbtCli.project_callbacks tool Examples.runtime cli_state).2 0 _)).
  vm_compute. reflexivity.
Defined.

Lemma invoke_again_adds_nothing_witness :
  arg_lists
    (@OpenDbtCli.invoke tool Examples.runtime 0 None
       (@OpenDbtCli.invoke tool Examples.runtime 0 None cli_state).2).2.2 !!! 0
  = arg_lists (@OpenDbtCli.invoke tool Examples.runtime 0 None cli_state).2.2 !!! 0.
Proof.
  refine (@invoke_again_adds_nothing tool Examples.runtime 0 None None cli_state _ _).
  - vm_compute. discriminate.
  - vm_compute. exact I.
Defined.

Lemma invoke_spares_an_empty_list_witness :
  arg_lists (@OpenDbtCli.invoke tool Examples.runtime 0 None
               (Examples.cli None, Examples.world [])).2.2 !! 0 = Some [].
Proof.
  refine (@invoke_spares_an_empty_list tool Examples.runtime 0 None
            (Examples.cli None, Examples.world []) _ 0 _).
  - reflexivity.
  - apply elem_of_dom. vm_compute. by eexists.
Defined.

Lemma manifest_and_generate_docs_change_no_list_witness :
  arg_lists (@OpenDbtCli.generate_docs tool Examples.runtime (Some 0) cli_state).2.2 !! 0
  = Some ["run"].
Proof.
  refine (proj2 (@manifest_and_generate_docs_change_no_list tool Examples.runtime)
            (Some 0) cli_state 0 _).
  apply elem_of_dom. vm_compute. by eexists.
Defined.

Lemma run_in_process_adds_no_option_witness :
  subprocess_commands
    (@OpenDbtProject.run tool Examples.runtime "build" None (Some 0) false false
       project_state).2.2 = [].
Proof.
  refine (proj1 (@run_in_process_adds_no_option tool Examples.runtime "build" None (Some 0)
                   false project_state _)).
  reflexivity.
Defined.

Lemma run_twice_adds_options_twice_witness :
  arg_lists
    (@OpenDbtProject.run tool Examples.runtime "test" (Some "prod") (Some 0) false false
       (@OpenDbtProject.run tool Examples.runtime "build" None (Some 0) false false
          project_state).2).2.2 !!! 0
  = ["--select"; "orders"]
    ++ ["--target"; "dev"; "--project-dir"; "/proj"; "--profiles-dir"; "/profiles"]
    ++ ["--target"; "prod"; "--project-dir"; "/proj"; "--profiles-dir"; "/profiles"].
Proof.
  refine (@run_twice_adds_options_twice tool Examples.runtime "build" "test" None
            (Some "prod") 0 false false false false project_state _).
  vm_compute. discriminate.
Defined.

(** The list at reference 0 is both the stored one and the one passed. *)
Lemma run_reads_stored_args_late_witness :
  subprocess_commands
    (@OpenDbtProject.run tool Examples.runtime "build" None (Some 0) true false
       project_state).2.2
  = [["/usr/bin/python3"; "-m"; "opendbt"; "build";
      "--select"; "orders"; "--target"; "dev"; "--project-dir"; "/proj";
      "--profiles-dir"; "/profiles";
      "--select"; "orders"; "--target"; "dev"; "--project-dir"; "/proj";
      "--profiles-dir"; "/profiles"]].
Proof.
  refine (@run_reads_stored_args_late tool Examples.runtime "build" None 0 project_state _).
  vm_compute. discriminate.
Defined.


Lemma dotted_name_resolves_witness :
  @DbtCommon.get_custom_adapter_class_by_name
    (DbtCommon.CPython {[ "pkg.adapters" := {[ "Custom" := ObjRef 3 ]} ]})
    "pkg.adapters.Custom" = Return (ObjRef 3).
Proof.
  refine (@dotted_name_resolves
            (DbtCommon.CPython {[ "pkg.adapters" := {[ "Custom" := ObjRef 3 ]} ]})
            "pkg.adapters" "Custom" {[ "Custom" := ObjRef 3 ]} (ObjRef 3) _ _ _).
  - reflexivity.
  - vm_compute. reflexivity.
  - vm_compute. reflexivity.
Defined.

Lemma callbacks_given_at_construction_are_extended_witness :
  ∃ self,
    @OpenDbtCli.__init__ tool "/proj" None (Some 0) ((), Examples.world [])
      = (Return self, ((), Examples.world [])) ∧
    callback_lists
      (@OpenDbtCli.project_callbacks tool Examples.runtime (self, Examples.world [])).2.2 !!! 0
    = callback_lists (Examples.world []) !!! 0 ++ [ObjRef 9; ObjRef 10].
Proof.
  refine (@callbacks_given_at_construction_are_extended tool Examples.runtime "/proj" None 0
            (Examples.world []) "/proj" Examples.with_callbacks
            (YStr "pkg.First,pkg.Second") [ObjRef 9; ObjRef 10] _ _ _ _ _).
  - reflexivity.
  - vm_compute. discriminate.
  - reflexivity.
  - vm_compute. reflexivity.
  - repeat constructor.
Defined.

End further_witnesses.
